(** * Training-data importers (rasa/importers/importer.py)

    A shallow embedding of the importer composition layer: the common
    contract [TrainingDataImporter], the filtering decorator
    [NluDataImporter], the aggregator [CombinedDataImporter] and the
    derivation decorator [E2EImporter], together with the message
    synthesis helpers at the end of the module.

    Coroutines are modelled as computations in a state-and-exception
    monad; [asyncio.gather] runs its awaitables in list order. *)

From stdpp Require Import gmap strings list fin_maps.

Local Open Scope string_scope.
Local Open Scope list_scope.

(** ** Python values used by the module *)

(** Truth value of an [Optional[Text]]: [None] and the empty string are
    falsy, every other string is truthy. *)
Definition truthy (t : option string) : bool :=
  match t with
  | Some s => negb (String.eqb s EmptyString)
  | None => false
  end.

(** [t or d] on an [Optional[Text]]. *)
Definition py_or (t : option string) (d : string) : string :=
  match t with
  | Some s => if truthy t then s else d
  | None => d
  end.

(** [functools.reduce(f, xs, init)]. *)
Definition reduce {A B : Type} (f : A → B → A) (xs : list B) (init : A) : A :=
  foldl f init xs.

(** Values stored in a configuration dictionary. *)
Inductive Value : Type :=
  | VNone
  | VBool (b : bool)
  | VInt (z : Z)
  | VStr (s : string).

(** ** Entity types

    The classes below live in other modules of the package
    (rasa.nlu.constants, rasa.nlu.training_data, rasa.core.events,
    rasa.core.training.structures, rasa.core.domain) and are imported by
    importer.py. *)

(** Modelled from the spec: the attribute names of rasa.nlu.constants
    (intent label, action name, action text), three pairwise distinct
    keys of a message's attribute mapping. *)
Inductive Attribute : Type :=
  | MESSAGE_INTENT_NAME
  | MESSAGE_ACTION_NAME
  | ACTION_TEXT.

#[global] Instance Attribute_eq_dec : EqDecision Attribute.
Proof. solve_decision. Defined.

Definition Attribute_to_nat (a : Attribute) : nat :=
  match a with
  | MESSAGE_INTENT_NAME => 0
  | MESSAGE_ACTION_NAME => 1
  | ACTION_TEXT => 2
  end.

Definition Attribute_of_nat (n : nat) : option Attribute :=
  match n with
  | 0 => Some MESSAGE_INTENT_NAME
  | 1 => Some MESSAGE_ACTION_NAME
  | 2 => Some ACTION_TEXT
  | _ => None
  end.

#[global] Instance Attribute_countable : Countable Attribute.
Proof.
  apply (inj_countable Attribute_to_nat Attribute_of_nat).
  by intros [].
Defined.

(** Modelled from the spec: the class Message of rasa.nlu.training_data,
    one training example: free text plus a mapping of named attributes
    to values. The class defines no truth value of its own, so every
    instance is truthy. *)
Record Message : Type := mkMessage {
  text : string;
  data : gmap Attribute string
}.

#[global] Instance Message_eq_dec : EqDecision Message.
Proof. solve_decision. Defined.

(** Modelled from the spec: the class TrainingData of
    rasa.nlu.training_data, a collection of training examples whose
    merge is the concatenation of the example collections. *)
Record TrainingData : Type := mkTrainingData {
  training_examples : list Message
}.

Module TrainingDataOps.
(** [TrainingData()] *)
Definition empty : TrainingData := mkTrainingData [].

(** [self.merge(other)] *)
Definition merge (self other : TrainingData) : TrainingData :=
  mkTrainingData (training_examples self ++ training_examples other).
End TrainingDataOps.

(** Modelled from the spec: the event classes of rasa.core.events. A
    user utterance carries free text and a resolved intent label, an
    executed action carries an action name and an optional end-to-end
    text; the other event classes are not inspected by the importers. *)
Inductive Event : Type :=
  | UserUttered (text : string) (intent_name : string)
  | ActionExecuted (action_name : string) (e2e_text : option string)
  | OtherEvent (type_name : string).

(** Modelled from the spec: story steps and the class StoryGraph of
    rasa.core.training.structures. A graph holds its steps, every step
    its events in order; merging keeps the steps of both graphs. The
    class defines no truth value of its own, so every instance is
    truthy. *)
Record StoryStep : Type := mkStoryStep {
  events : list Event
}.

Record StoryGraph : Type := mkStoryGraph {
  story_steps : list StoryStep
}.

Module StoryGraphOps.
(** [StoryGraph([])] *)
Definition empty : StoryGraph := mkStoryGraph [].

(** [self.merge(other)] *)
Definition merge (self other : StoryGraph) : StoryGraph :=
  mkStoryGraph (story_steps self ++ story_steps other).
End StoryGraphOps.

(** Modelled from the spec: the class Domain of rasa.core.domain, the
    declared intents, entities, slots, response templates, actions and
    form names of a bot; merging two domains yields the union of their
    declared elements. *)
Record Domain : Type := mkDomain {
  intents : gset string;
  entities : gset string;
  slots : gset string;
  templates : gmap string (list string);
  action_names : gset string;
  form_names : gset string
}.

Module DomainOps.
(** [Domain(intents, entities, slots, templates, action_names,
    form_names)] called on lists of names and a template mapping. *)
Definition make (intents entities slots : list string)
    (templates : gmap string (list string))
    (action_names form_names : list string) : Domain :=
  mkDomain (list_to_set intents) (list_to_set entities) (list_to_set slots)
           templates (list_to_set action_names) (list_to_set form_names).

(** [Domain.empty()] *)
Definition empty : Domain := make [] [] [] ∅ [] [].

(** [self.merge(other)] *)
Definition merge (self other : Domain) : Domain :=
  mkDomain (intents self ∪ intents other)
           (entities self ∪ entities other)
           (slots self ∪ slots other)
           (templates self ∪ templates other)
           (action_names self ∪ action_names other)
           (form_names self ∪ form_names other).
End DomainOps.

(** Modelled from the spec: the interpreters of rasa.core.interpreter;
    [RegexInterpreter] is the default of [get_stories]. *)
Inductive NaturalLanguageInterpreter : Type :=
  | RegexInterpreter
  | CustomInterpreter (name : string).

(** The arguments of [get_stories]. *)
Record StoriesArgs : Type := mkStoriesArgs {
  interpreter : NaturalLanguageInterpreter;
  template_variables : option (gmap string string);
  use_e2e : bool;
  exclusion_percentage : option Z
}.

(** [get_stories()] called without arguments. *)
Definition default_stories_args : StoriesArgs :=
  mkStoriesArgs RegexInterpreter None false None.

(** ** Coroutines

    A coroutine over a store [S] either returns a value or raises an
    exception of type [E], and leaves a store behind in both cases. *)

Inductive result (E A : Type) : Type :=
  | Ok (a : A)
  | Raise (e : E).

Arguments Ok {E A} a.
Arguments Raise {E A} e.

Definition M (E S A : Type) : Type := S → result E A * S.

Section Coroutines.
Context {E S : Type}.

(** [return a] *)
Definition ret {A} (a : A) : M E S A := λ s, (Ok a, s).

(** [x = await c; k x] *)
Definition bind {A B} (c : M E S A) (k : A → M E S B) : M E S B :=
  λ s, match c s with
       | (Ok a, s1) => k a s1
       | (Raise e, s1) => (Raise e, s1)
       end.

(** The event loop runs every scheduled awaitable, in scheduling
    order, whatever the outcome of the others. *)
Fixpoint run_all {A} (aws : list (M E S A)) (s : S)
    : list (result E A) * S :=
  match aws with
  | [] => ([], s)
  | c :: rest =>
      let '(r, s1) := c s in
      let '(rs, s2) := run_all rest s1 in
      (r :: rs, s2)
  end.

(** The outcome of [asyncio.gather]: the list of the results in the
    order of the awaitables, or the exception of a failed awaitable.
    Of several failures [asyncio.gather] raises the one that happens
    first; for awaitables that fail without suspending this is the
    earliest in the list, which is the one taken here. What is stated
    below about a failed operation of the importers only says that its
    exception is the exception of some failed awaitable. *)
Fixpoint collect {A} (rs : list (result E A)) : result E (list A) :=
  match rs with
  | [] => Ok []
  | Raise e :: _ => Raise e
  | Ok a :: rest =>
      match collect rest with
      | Ok l => Ok (a :: l)
      | Raise e => Raise e
      end
  end.

(** [await asyncio.gather(...)] on the awaitables [aws] *)
Definition gather {A} (aws : list (M E S A)) : M E S (list A) :=
  λ s, let '(rs, s1) := run_all aws s in (collect rs, s1).

(** [a, b = await asyncio.gather(ca, cb)]; when both fail the exception
    of [ca] is taken, as in [collect]. *)
Definition gather2 {A B} (ca : M E S A) (cb : M E S B) : M E S (A * B) :=
  λ s, let '(ra, s1) := ca s in
       let '(rb, s2) := cb s1 in
       (match ra, rb with
        | Raise e, _ => Raise e
        | Ok _, Raise e => Raise e
        | Ok a, Ok b => Ok (a, b)
        end, s2).
End Coroutines.

Notation "'let*' x ':=' c 'in' k" := (bind c (λ x, k))
  (at level 10, x binder, c at level 100, k at level 200, only parsing).

(** ** The contract: class TrainingDataImporter *)

Module Importer.
Record t (E S : Type) : Type := mk {
  get_domain : M E S Domain;
  get_stories : StoriesArgs → M E S StoryGraph;
  get_config : M E S (option (gmap string Value));
  get_nlu_data : option string → M E S TrainingData
}.
Arguments mk {E S}.
Arguments get_domain {E S}.
Arguments get_stories {E S}.
Arguments get_config {E S}.
Arguments get_nlu_data {E S}.
End Importer.

(** ** class NluDataImporter

    Its [get_nlu_data] passes [only_nlu=True] to the wrapped importer,
    an argument only [E2EImporter.get_nlu_data] accepts; the three
    operations below are those of the contract proper. *)

Module NluDataImporter.
Section Methods.
Context {E S : Type}.

Definition get_domain (_importer : Importer.t E S) : M E S Domain :=
  ret DomainOps.empty.

Definition get_stories (_importer : Importer.t E S) (args : StoriesArgs)
    : M E S StoryGraph :=
  ret StoryGraphOps.empty.

Definition get_config (_importer : Importer.t E S)
    : M E S (option (gmap string Value)) :=
  Importer.get_config _importer.
End Methods.
End NluDataImporter.

(** ** class CombinedDataImporter *)

Module CombinedDataImporter.
Section Methods.
Context {E S : Type}.
Variable _importers : list (Importer.t E S).

(** [{**merged, **(other or {})}]: the keys of [other] win. *)
Definition merge_config (merged : gmap string Value)
    (other : option (gmap string Value)) : gmap string Value :=
  default ∅ other ∪ merged.

Definition get_config : M E S (option (gmap string Value)) :=
  let* configs := gather (map Importer.get_config _importers) in
  ret (Some (reduce merge_config configs ∅)).

Definition get_domain : M E S Domain :=
  let* domains := gather (map Importer.get_domain _importers) in
  ret (reduce DomainOps.merge domains DomainOps.empty).

Definition get_stories (args : StoriesArgs) : M E S StoryGraph :=
  let* stories := gather (map (λ importer, Importer.get_stories importer args)
                        _importers) in
  ret (reduce StoryGraphOps.merge stories StoryGraphOps.empty).

Definition get_nlu_data (language : option string) : M E S TrainingData :=
  let* nlu_data := gather (map (λ importer, Importer.get_nlu_data importer language)
                         _importers) in
  ret (reduce TrainingDataOps.merge nlu_data TrainingDataOps.empty).

(** The aggregator seen through the contract. *)
Definition as_importer : Importer.t E S :=
  Importer.mk get_domain get_stories get_config get_nlu_data.
End Methods.
End CombinedDataImporter.

(** ** Messages synthesised from conversation events *)

Definition _messages_from_user_utterance (text intent_name : string) : Message :=
  mkMessage text {[ MESSAGE_INTENT_NAME := intent_name ]}.

(** The action text is stored twice, as the text of the message and
    under [ACTION_TEXT]. *)
Definition _messages_from_action (action_name : string)
    (e2e_text : option string) : Message :=
  mkMessage (py_or e2e_text EmptyString)
            (<[ ACTION_TEXT := py_or e2e_text EmptyString ]>
               {[ MESSAGE_ACTION_NAME := action_name ]}).

Definition _message_from_conversation_event (event : Event) : option Message :=
  match event with
  | UserUttered text intent_name =>
      Some (_messages_from_user_utterance text intent_name)
  | ActionExecuted action_name e2e_text =>
      Some (_messages_from_action action_name e2e_text)
  | OtherEvent _ => None
  end.

(** The registry of built-in action names,
    [rasa.core.actions.action.default_action_names()], belongs to the
    dialogue-management package; it is an argument here. *)
Definition _additional_training_data_from_default_actions
    (default_action_names : list string) : TrainingData :=
  mkTrainingData
    (map (λ action_name, mkMessage EmptyString {[ MESSAGE_ACTION_NAME := action_name ]})
         default_action_names).

(** The loop of [_additional_training_data_from_stories]: every event of
    every step, in order; a message that is not [None] is appended. *)
Definition messages_from_stories (stories : StoryGraph) : list Message :=
  foldl (λ additional_messages_from_stories story_step,
           foldl (λ acc event,
                    match _message_from_conversation_event event with
                    | Some message => acc ++ [message]
                    | None => acc
                    end)
                 additional_messages_from_stories (events story_step))
        [] (story_steps stories).

(** The comprehension of [_get_domain_with_e2e_actions] over the events
    of one step: the action names of the executed actions whose
    end-to-end text is truthy. *)
Definition e2e_action_names (evs : list Event) : list string :=
  omap (λ event,
          match event with
          | ActionExecuted action_name e2e_text =>
              if truthy e2e_text then Some action_name else None
          | _ => None
          end) evs.

(** ** class E2EImporter *)

Module E2EImporter.

(** The instance attribute [_cached_stories] next to the store of the
    wrapped importer. *)
Record state (S : Type) : Type := mkState {
  _cached_stories : option StoryGraph;
  inner : S
}.
Arguments mkState {S}.
Arguments _cached_stories {S}.
Arguments inner {S}.

Section Methods.
Context {E S : Type}.
Variable default_action_names : list string.
Variable _importer : Importer.t E S.

(** [__init__] *)
Definition init (s : S) : state S := mkState None s.

(** A coroutine of the wrapped importer, awaited by the decorator. *)
Definition call {A} (c : M E S A) : M E (state S) A :=
  λ st, let '(r, s1) := c (inner st) in (r, mkState (_cached_stories st) s1).

Definition read_cached_stories : M E (state S) (option StoryGraph) :=
  λ st, (Ok (_cached_stories st), st).

Definition write_cached_stories (stories : StoryGraph) : M E (state S) unit :=
  λ st, (Ok tt, mkState (Some stories) (inner st)).

(** [if not self._cached_stories] holds exactly when the attribute is
    [None]: a StoryGraph is truthy. *)
Definition get_stories (args : StoriesArgs) : M E (state S) StoryGraph :=
  let* cached := read_cached_stories in
  match cached with
  | Some stories => ret stories
  | None =>
      let* stories := call (Importer.get_stories _importer args) in
      let* _ := write_cached_stories stories in
      ret stories
  end.

Definition _get_domain_with_e2e_actions : M E (state S) Domain :=
  let* stories := get_stories default_stories_args in
  let additional_e2e_action_names :=
    foldl (λ acc story_step, acc ++ e2e_action_names (events story_step))
          [] (story_steps stories) in
  let additional_e2e_action_names :=
    elements (list_to_set additional_e2e_action_names : gset string) in
  ret (DomainOps.make [] [] [] ∅ additional_e2e_action_names []).

Definition get_domain : M E (state S) Domain :=
  let* both := gather2 (call (Importer.get_domain _importer))
                       _get_domain_with_e2e_actions in
  ret (DomainOps.merge both.1 both.2).

Definition get_config : M E (state S) (option (gmap string Value)) :=
  call (Importer.get_config _importer).

Definition _additional_training_data_from_stories : M E (state S) TrainingData :=
  let* stories := get_stories default_stories_args in
  ret (mkTrainingData (messages_from_stories stories)).

Definition get_nlu_data (language : option string) (only_nlu : bool)
    : M E (state S) TrainingData :=
  let training_datasets :=
    [_additional_training_data_from_default_actions default_action_names] in
  let* training_datasets :=
    if only_nlu then
      gather [call (Importer.get_nlu_data _importer language)]
    else
      let* fetched := gather [call (Importer.get_nlu_data _importer language);
                              _additional_training_data_from_stories] in
      ret (training_datasets ++ fetched) in
  ret (reduce TrainingDataOps.merge training_datasets TrainingDataOps.empty).

End Methods.
End E2EImporter.

(** ** Keyword arguments outside the contract

    The filtering decorators pass a keyword argument the contract does
    not declare. Binding it against the signature of the called method
    raises a TypeError, before the method runs, unless the signature
    names it; none of the methods of this module takes [**kwargs]. *)

Definition call_with_keyword {E S A : Type} (TypeError : string → E)
    (parameters : list string) (keyword : string) (body : M E S A) : M E S A :=
  if bool_decide (keyword ∈ parameters) then body
  else λ s, (Raise (TypeError keyword), s).

(** The parameters, after [self], of the methods the decorators call
    with a keyword. *)
Definition E2EImporter_get_stories_parameters : list string :=
  ["interpreter"; "template_variables"; "use_e2e"; "exclusion_percentage"].

Definition E2EImporter_get_nlu_data_parameters : list string :=
  ["language"; "only_nlu"].

Definition CombinedDataImporter_get_stories_parameters : list string :=
  ["interpreter"; "template_variables"; "use_e2e"; "exclusion_percentage"].

Definition CombinedDataImporter_get_nlu_data_parameters : list string :=
  ["language"].

(** ** The decorators around an E2EImporter

    [load_core_importer_from_config] and [load_nlu_importer_from_config]
    wrap the importer returned by [load_from_config], which is an
    [E2EImporter]; [_importer] below is the importer inside that
    [E2EImporter]. *)

Module CoreDataImporter.
Section Methods.
Context {E S : Type}.
Variable TypeError : string → E.
Variable _importer : Importer.t E S.

Definition get_domain : M E (E2EImporter.state S) Domain :=
  E2EImporter.get_domain _importer.

(** The wrapped [get_stories] is called with [only_core=True]. *)
Definition get_stories (args : StoriesArgs) : M E (E2EImporter.state S) StoryGraph :=
  call_with_keyword TypeError E2EImporter_get_stories_parameters "only_core"
    (E2EImporter.get_stories _importer args).

Definition get_config : M E (E2EImporter.state S) (option (gmap string Value)) :=
  E2EImporter.get_config _importer.

Definition get_nlu_data (language : option string)
    : M E (E2EImporter.state S) TrainingData :=
  ret TrainingDataOps.empty.
End Methods.
End CoreDataImporter.

Module NluDataImporterOverE2E.
Section Methods.
Context {E S : Type}.
Variable TypeError : string → E.
Variable default_action_names : list string.
Variable _importer : Importer.t E S.

(** [NluDataImporter.get_nlu_data]: the wrapped [get_nlu_data] is called
    with [only_nlu=True]. *)
Definition get_nlu_data (language : option string)
    : M E (E2EImporter.state S) TrainingData :=
  call_with_keyword TypeError E2EImporter_get_nlu_data_parameters "only_nlu"
    (E2EImporter.get_nlu_data default_action_names _importer language true).
End Methods.
End NluDataImporterOverE2E.

(** The same decorators directly around a [CombinedDataImporter]. *)
Module OverCombined.
Section Methods.
Context {E S : Type}.
Variable TypeError : string → E.
Variable _importers : list (Importer.t E S).

(** [CoreDataImporter.get_stories] *)
Definition core_get_stories (args : StoriesArgs) : M E S StoryGraph :=
  call_with_keyword TypeError CombinedDataImporter_get_stories_parameters "only_core"
    (CombinedDataImporter.get_stories _importers args).

(** [NluDataImporter.get_nlu_data] *)
Definition nlu_get_nlu_data (language : option string) : M E S TrainingData :=
  call_with_keyword TypeError CombinedDataImporter_get_nlu_data_parameters "only_nlu"
    (CombinedDataImporter.get_nlu_data _importers language).
End Methods.
End OverCombined.

(** ** The factory: [load_from_dict] and [_importer_from_dict]

    The classes [RasaFileImporter] and [MultiProjectImporter], the
    helpers [class_from_module_path] and [minimal_kwargs] and the
    constructors of the importer classes belong to other modules; they
    are arguments here. A constructed importer is truthy. Of the
    configuration dictionary the factory reads the value under
    ["importers"]: the key can be absent, its value can be [None] (a
    key written without a value) or a list, whose entries are
    dictionaries. *)

#[global] Instance Value_eq_dec : EqDecision Value.
Proof. solve_decision. Defined.

(** The three paths handed to every importer class. *)
Record Paths : Type := mkPaths {
  config_path : string;
  domain_path : option string;
  training_data_paths : option (list string)
}.

(** What the configuration dictionary holds under ["importers"]. *)
Inductive ImportersEntry : Type :=
  | ImportersAbsent
  | ImportersNone
  | ImportersList (entries : list (gmap string Value)).

(** The configuration dictionary. *)
Record LoadedConfig : Type := mkLoadedConfig {
  importers_entry : ImportersEntry
}.

(** A list comprehension over calls that may raise: the first
    exception ends it. *)
Fixpoint result_map_list {E A B : Type} (f : A → result E B) (l : list A)
    : result E (list B) :=
  match l with
  | [] => Ok []
  | x :: rest =>
      match f x with
      | Raise e => Raise e
      | Ok y =>
          match result_map_list f rest with
          | Raise e => Raise e
          | Ok ys => Ok (y :: ys)
          end
      end
  end.

Module Factory.
Section Factory.
Context {E Class Imp : Type}.
Variable TypeError : string → E.
Variables (RasaFileImporter MultiProjectImporter : Class).
Variable class_from_module_path : option Value → result E Class.
Variable is_AttributeError_or_ImportError : E → bool.
Variable minimal_kwargs : gmap string Value → Class → gmap string Value.
Variable construct : Class → Paths → gmap string Value → result E Imp.

(** [importer_config.pop("name", None)] removes the name before the
    keyword arguments of the constructor are selected. *)
Definition _importer_from_dict (importer_config : gmap string Value)
    (paths : Paths) : result E (option Imp) :=
  let module_path := importer_config !! "name" in
  let importer_config := delete "name" importer_config in
  let importer_class : result E (option Class) :=
    if bool_decide (module_path = Some (VStr "RasaFileImporter")) then
      Ok (Some RasaFileImporter)
    else if bool_decide (module_path = Some (VStr "MultiProjectImporter")) then
      Ok (Some MultiProjectImporter)
    else
      match class_from_module_path module_path with
      | Ok found => Ok (Some found)
      | Raise e =>
          if is_AttributeError_or_ImportError e then Ok None else Raise e
      end in
  match importer_class with
  | Raise e => Raise e
  | Ok None => Ok None
  | Ok (Some importer_class) =>
      let constructor_arguments := minimal_kwargs importer_config importer_class in
      match construct importer_class paths constructor_arguments with
      | Ok importer => Ok (Some importer)
      | Raise e => Raise e
      end
  end.

(** The importers handed to [E2EImporter(CombinedDataImporter(...))].
    [config.get("importers", [])] gives the empty list only when the
    key is absent; the comprehension over a value [None] raises a
    TypeError. *)
Definition load_from_dict (config : option LoadedConfig) (paths : Paths)
    : result E (list Imp) :=
  let importers : result E (list (gmap string Value)) :=
    match config with
    | Some config =>
        match importers_entry config with
        | ImportersAbsent => Ok []
        | ImportersNone => Raise (TypeError "'NoneType' object is not iterable")
        | ImportersList entries => Ok entries
        end
    | None => Ok []
    end in
  match importers with
  | Raise e => Raise e
  | Ok importers =>
      match result_map_list (λ importer, _importer_from_dict importer paths)
                            importers
      with
      | Raise e => Raise e
      | Ok importers =>
          let importers := omap id importers in
          match importers with
          | [] =>
              match construct RasaFileImporter paths ∅ with
              | Ok importer => Ok [importer]
              | Raise e => Raise e
              end
          | _ :: _ => Ok importers
          end
      end
  end.
End Factory.
End Factory.

(** * Vocabulary of the properties *)

(** ** Outcomes of gathered calls *)

(** The exception of the earliest failed awaitable, if any. *)
Definition first_error {E A : Type} (rs : list (result E A)) : option E :=
  head (omap (λ r, match r with Raise e => Some e | Ok _ => None end) rs).

(** An outcome without its value. *)
Definition outcome {E A : Type} (r : result E A) : result E unit :=
  match r with
  | Ok _ => Ok tt
  | Raise e => Raise e
  end.

(** The four operations of the contract. *)
Inductive Operation : Type :=
  | GetDomain
  | GetStories (args : StoriesArgs)
  | GetConfig
  | GetNluData (language : option string).

Section Outcomes.
Context {E S : Type}.
Implicit Types (importers : list (Importer.t E S)) (s : S).

(** What each child's call does when the aggregator runs [op] from the
    store [s]: the outcomes of the children, in the order of the list. *)
Definition child_outcomes (op : Operation) importers s : list (result E unit) :=
  match op with
  | GetDomain =>
      map outcome (run_all (map Importer.get_domain importers) s).1
  | GetStories args =>
      map outcome
        (run_all (map (λ importer, Importer.get_stories importer args) importers) s).1
  | GetConfig =>
      map outcome (run_all (map Importer.get_config importers) s).1
  | GetNluData language =>
      map outcome
        (run_all (map (λ importer, Importer.get_nlu_data importer language) importers) s).1
  end.

(** The outcome of the aggregator's own operation. *)
Definition combined_outcome (op : Operation) importers s : result E unit :=
  match op with
  | GetDomain => outcome (CombinedDataImporter.get_domain importers s).1
  | GetStories args => outcome (CombinedDataImporter.get_stories importers args s).1
  | GetConfig => outcome (CombinedDataImporter.get_config importers s).1
  | GetNluData language =>
      outcome (CombinedDataImporter.get_nlu_data importers language s).1
  end.
End Outcomes.

(** ** Configurations, messages and actions *)

(** The dictionary union as the specification words it: the value of a
    key is the one given by the last child, in the order of the list,
    whose configuration has the key. *)
Definition last_binding (k : string) (configs : list (option (gmap string Value)))
    : option Value :=
  foldr (λ config later,
           match later with
           | Some v => Some v
           | None => default ∅ config !! k
           end) None configs.

(** The configurations of the worked example: [{"a": 1}], then
    [{"a": 2, "b": 3}]. *)
Definition example_configs : list (option (gmap string Value)) :=
  [Some {[ "a" := VInt 1 ]}; Some {[ "a" := VInt 2; "b" := VInt 3 ]}].

(** The messages of a story graph, step by step. *)
Definition step_messages (story_step : StoryStep) : list Message :=
  omap _message_from_conversation_event (events story_step).

(** The story of the worked example: one step, a user utterance
    followed by an end-to-end bot utterance. *)
Definition example_story_graph : StoryGraph :=
  mkStoryGraph
    [mkStoryStep [UserUttered "book a table" "reserve";
                  ActionExecuted "utter_confirm" (Some "Sure, done!")]].

(** The end-to-end text of an executed action when it has one, the
    empty text otherwise. *)
Definition available_text (e2e_text : option string) : string :=
  match e2e_text with
  | Some s => s
  | None => EmptyString
  end.

(** The action [name] is scripted with a non-empty end-to-end text in
    some step of the story graph. *)
Definition e2e_action_in (stories : StoryGraph) (name : string) : Prop :=
  ∃ (story_step : StoryStep) (e2e_text : string),
    story_step ∈ story_steps stories ∧
    ActionExecuted name (Some e2e_text) ∈ events story_step ∧
    e2e_text ≠ EmptyString.

(** ** Worked examples

    Source adapters over a store that counts the story fetches; an
    exception is the text of its message. *)

Definition greet_message : Message :=
  mkMessage "hello" {[ MESSAGE_INTENT_NAME := "greet" ]}.

(** An adapter with fixed data. Its stories are those of [stories]
    when end-to-end annotations are requested or [always] is set, and
    none otherwise; every fetch of the stories is counted. *)
Definition fixed_importer (domain : Domain) (stories : StoryGraph) (always : bool)
    (config : option (gmap string Value)) (nlu : TrainingData)
    : Importer.t string nat :=
  Importer.mk
    (ret domain)
    (λ args fetches,
       (Ok (if use_e2e args || always then stories else StoryGraphOps.empty),
        Datatypes.S fetches))
    (ret config)
    (λ _, ret nlu).

(** An adapter whose every operation raises [message]. *)
Definition failing_importer (message : string) : Importer.t string nat :=
  Importer.mk
    (λ s, (Raise message, s))
    (λ _ s, (Raise message, s))
    (λ s, (Raise message, s))
    (λ _ s, (Raise message, s)).

Definition example_importer : Importer.t string nat :=
  fixed_importer DomainOps.empty example_story_graph true None
                 (mkTrainingData [greet_message]).

(** A story whose only bot turn names a canned response. *)
Definition greet_story_graph : StoryGraph :=
  mkStoryGraph [mkStoryStep [UserUttered "hi" "greet";
                             ActionExecuted "utter_greet" None]].

Definition greet_importer : Importer.t string nat :=
  fixed_importer DomainOps.empty greet_story_graph true None (mkTrainingData []).

(** The adapters of the configuration example. *)
Definition first_config_importer : Importer.t string nat :=
  fixed_importer DomainOps.empty StoryGraphOps.empty false
                 (Some {[ "a" := VInt 1 ]}) TrainingDataOps.empty.

Definition second_config_importer : Importer.t string nat :=
  fixed_importer DomainOps.empty StoryGraphOps.empty false
                 (Some {[ "a" := VInt 2; "b" := VInt 3 ]}) TrainingDataOps.empty.

(** The message derived from the bot turn of [greet_story_graph]. *)
Definition greet_action_message : Message :=
  mkMessage EmptyString {[ MESSAGE_ACTION_NAME := "utter_greet"; ACTION_TEXT := EmptyString ]}.

(** ** Groups of children *)

Section Groups.
Context {E S A : Type}.

(** The outcomes of the awaitables of several groups, run group after
    group. *)
Fixpoint run_groups (groups : list (list (M E S A))) (s : S)
    : list (list (result E A)) * S :=
  match groups with
  | [] => ([], s)
  | group :: rest =>
      let '(rs, s1) := run_all group s in
      let '(rss, s2) := run_groups rest s1 in
      (rs :: rss, s2)
  end.
End Groups.

(** An event that yields a message: a user utterance or an executed
    action. *)
Definition is_message_event (event : Event) : bool :=
  match event with
  | UserUttered _ _ | ActionExecuted _ _ => true
  | OtherEvent _ => false
  end.

(** All the events of a story graph, step after step. *)
Definition all_events (stories : StoryGraph) : list Event :=
  concat (map events (story_steps stories)).

(** An adapter whose story fetch fails the first time and succeeds
    afterwards. *)
Definition flaky_importer : Importer.t string nat :=
  Importer.mk
    (ret DomainOps.empty)
    (λ _ fetches,
       (match fetches with
        | O => Raise "stories.md is locked"
        | _ => Ok example_story_graph
        end, Datatypes.S fetches))
    (ret None)
    (λ _, ret TrainingDataOps.empty).

(** An adapter with a domain of its own and the stories of
    [greet_story_graph]. *)
Definition greet_domain_importer : Importer.t string nat :=
  fixed_importer (DomainOps.make ["greet"] [] [] ∅ ["utter_greet"] [])
                 greet_story_graph true None TrainingDataOps.empty.

(** The importer entries of a configuration: those of the list under
    ["importers"], none when there is no such list. *)
Definition configured_importers (config : option LoadedConfig)
    : list (gmap string Value) :=
  match config with
  | Some (mkLoadedConfig (ImportersList entries)) => entries
  | _ => []
  end.

(** A factory over named classes: a class is its name, an importer the
    class and the keyword arguments it was built with; only the module
    path "custom.Importer" resolves, and an unknown path raises an
    ImportError. *)
Definition example_class_from_module_path (module_path : option Value)
    : result string string :=
  if bool_decide (module_path = Some (VStr "custom.Importer"))
  then Ok "custom.Importer" else Raise "ImportError".

Definition example_construct (importer_class : string) (paths : Paths)
    (arguments : gmap string Value)
    : result string (string * gmap string Value) :=
  Ok (importer_class, arguments).

Definition example_load_from_dict (config : option LoadedConfig) (paths : Paths)
    : result string (list (string * gmap string Value)) :=
  Factory.load_from_dict (λ message, message)
    "RasaFileImporter" "MultiProjectImporter"
    example_class_from_module_path (λ e, bool_decide (e = "ImportError"))
    (λ arguments _, arguments) example_construct config paths.

Definition example_paths : Paths :=
  mkPaths "config.yml" (Some "domain.yml") (Some ["data"]).

(** * Properties *)

(** ** Coroutines and [asyncio.gather] *)

Section GatherFacts.
Context {E S A : Type}.
Implicit Types (aws : list (M E S A)) (rs : list (result E A)) (s : S).

Lemma run_all_length aws s : length (run_all aws s).1 = length aws.
Proof.
  revert s. induction aws as [|c rest IH]; intros s; simpl; [done|].
  destruct (c s) as [r s1]. specialize (IH s1).
  destruct (run_all rest s1) as [rs s2]. simpl in *. by rewrite IH.
Qed.

Lemma collect_all_ok (vs : list A) : collect (E:=E) (map Ok vs) = Ok vs.
Proof. induction vs as [|v vs IH]; simpl; [done|]. by rewrite IH. Qed.

Lemma collect_ok_inv rs vs : collect rs = Ok vs → rs = map Ok vs.
Proof.
  revert vs. induction rs as [|[a|e] rest IH]; intros vs; simpl.
  - by intros [= <-].
  - destruct (collect rest) as [l|e'] eqn:Hc; [|done].
    intros [= <-]. simpl. by rewrite (IH l).
  - done.
Qed.

Lemma collect_raise_first rs e :
  collect rs = Raise e ↔ first_error rs = Some e.
Proof.
  unfold first_error. induction rs as [|[a|e0] rest IH]; simpl.
  - done.
  - destruct (collect rest) as [l|e'] eqn:Hc.
    + split; [done|]. intros H. apply IH in H. done.
    + rewrite <- IH. split; by intros [= ->].
  - split; by intros [= ->].
Qed.

(** A failed awaitable makes the earliest failure the outcome of the
    whole [gather]. *)
Lemma first_error_earliest rs (i : nat) e :
  rs !! i = Some (Raise e) →
  ∃ (j : nat) e', (j ≤ i)%nat ∧ rs !! j = Some (Raise e') ∧
          (∀ k : nat, (k < j)%nat → ∃ a, rs !! k = Some (Ok a)) ∧
          first_error rs = Some e'.
Proof.
  revert i. induction rs as [|r rest IH]; intros i Hi; [done|].
  destruct r as [a|e0].
  - destruct i as [|i]; [done|]. simpl in Hi.
    destruct (IH i Hi) as (j & e' & Hle & Hj & Hbefore & Hfirst).
    exists (Datatypes.S j), e'. split; [lia|]. split; [done|]. split; [|done].
    intros [|k] Hk; [by exists a|]. apply Hbefore. lia.
  - exists 0%nat, e0. split; [lia|]. split; [done|]. split; [|done].
    intros k Hk. lia.
Qed.

Lemma gather_nil s : gather (E:=E) (A:=A) [] s = (Ok [], s).
Proof. done. Qed.

Lemma gather_outcome aws s :
  gather aws s = (collect (run_all aws s).1, (run_all aws s).2).
Proof. unfold gather. by destruct (run_all aws s). Qed.

Lemma bind_ret_outcome {B} (c : M E S A) (f : A → B) s :
  outcome (bind c (λ a, ret (f a)) s).1 = outcome (c s).1.
Proof. unfold bind, ret. by destruct (c s) as [[a|e] s1]. Qed.

Lemma bind_ret_ok {B} (c : M E S A) (f : A → B) s a s1 :
  c s = (Ok a, s1) → bind c (λ a, ret (f a)) s = (Ok (f a), s1).
Proof. unfold bind, ret. by intros ->. Qed.
End GatherFacts.

Section GatherFailure.
Context {E S A B : Type}.

(** An operation built as [reduce] over the gathered results of its
    children fails as soon as one child fails, with the exception of
    the earliest failed child. *)
Lemma gather_then_reduce_failure (aws : list (M E S A)) (f : list A → B)
    (s : S) (i : nat) (e : E) :
  map outcome (run_all aws s).1 !! i = Some (Raise e) →
  ∃ (j : nat) (e' : E),
    (j ≤ i)%nat ∧
    map outcome (run_all aws s).1 !! j = Some (Raise e') ∧
    (∀ k : nat, (k < j)%nat → map outcome (run_all aws s).1 !! k = Some (Ok tt)) ∧
    outcome (bind (gather aws) (λ xs, ret (f xs)) s).1 = Raise e'.
Proof.
  intros Hi. rewrite list_lookup_fmap in Hi.
  destruct ((run_all aws s).1 !! i) as [[a|e0]|] eqn:Hri; simplify_eq/=.
  destruct (first_error_earliest _ _ _ Hri) as (j & e' & Hle & Hj & Hbefore & Hfirst).
  exists j, e'. split; [done|]. split.
  { by rewrite list_lookup_fmap, Hj. }
  split.
  { intros k Hk. destruct (Hbefore k Hk) as [a Ha].
    by rewrite list_lookup_fmap, Ha. }
  rewrite bind_ret_outcome, gather_outcome. simpl.
  apply collect_raise_first in Hfirst. by rewrite Hfirst.
Qed.
End GatherFailure.

(** ** CombinedDataImporter *)

Section CombinedFacts.
Context {E S : Type}.
Implicit Types (importers : list (Importer.t E S)) (s : S).

(** C10: an aggregator without children returns, for each of the four
    operations, the empty value of the result type: [Domain.empty()],
    [StoryGraph([])], [TrainingData()] and the empty dictionary. *)
Theorem combined_no_children s (args : StoriesArgs) (language : option string) :
  CombinedDataImporter.get_domain (E:=E) [] s = (Ok DomainOps.empty, s) ∧
  CombinedDataImporter.get_stories (E:=E) [] args s = (Ok StoryGraphOps.empty, s) ∧
  CombinedDataImporter.get_nlu_data (E:=E) [] language s
    = (Ok TrainingDataOps.empty, s) ∧
  CombinedDataImporter.get_config (E:=E) [] s = (Ok (Some ∅), s).
Proof. repeat split. Qed.

(** C7: when the call of some child fails, the aggregator's operation
    fails as well, for each of the four operations: it returns no
    result, and the exception it raises is the exception of a failed
    child, unchanged; it is the exception of that child whenever no
    child fails with another one. *)
Theorem combined_failure_propagates (op : Operation) importers s (i : nat) (e : E) :
  child_outcomes op importers s !! i = Some (Raise e) →
  (∃ (j : nat) (e' : E),
     child_outcomes op importers s !! j = Some (Raise e') ∧
     combined_outcome op importers s = Raise e') ∧
  ((∀ (k : nat) (e' : E),
      child_outcomes op importers s !! k = Some (Raise e') → e' = e) →
   combined_outcome op importers s = Raise e).
Proof.
  intros Hfail.
  assert (∃ (j : nat) (e' : E),
            child_outcomes op importers s !! j = Some (Raise e') ∧
            combined_outcome op importers s = Raise e') as Hsome.
  { assert (∃ (j : nat) (e' : E),
              (j ≤ i)%nat ∧
              child_outcomes op importers s !! j = Some (Raise e') ∧
              (∀ k : nat, (k < j)%nat →
                 child_outcomes op importers s !! k = Some (Ok tt)) ∧
              combined_outcome op importers s = Raise e') as Hearliest.
    { revert Hfail. destruct op; simpl; apply gather_then_reduce_failure. }
    destruct Hearliest as (j & e' & _ & Hj & _ & Hraise). eauto. }
  split; [exact Hsome|].
  intros Hsame. destruct Hsome as (j & e' & Hj & Hraise).
  by rewrite Hraise, (Hsame j e' Hj).
Qed.
End CombinedFacts.

Lemma reduce_merge_config_lookup (configs : list (option (gmap string Value)))
    (merged : gmap string Value) (k : string) :
  reduce (CombinedDataImporter.merge_config) configs merged !! k =
  match last_binding k configs with
  | Some v => Some v
  | None => merged !! k
  end.
Proof.
  unfold reduce. revert merged.
  induction configs as [|config rest IH]; intros merged; simpl; [done|].
  rewrite IH. destruct (last_binding k rest) as [v|]; [done|].
  unfold CombinedDataImporter.merge_config. rewrite lookup_union.
  destruct (default ∅ config !! k) as [v|], (merged !! k) as [w|]; done.
Qed.

Section CombinedConfig.
Context {E S : Type}.

(** C6: the aggregator's [get_config] is the left-to-right dictionary
    union of the children's configurations, starting from the empty
    dictionary: every key has the value given by the last child that
    defines it. Children returning [{"a": 1}] and [{"a": 2, "b": 3}]
    give exactly [{"a": 2, "b": 3}]. *)
Theorem combined_get_config_union (importers : list (Importer.t E S)) (s s' : S)
    (configs : list (option (gmap string Value))) :
  gather (map Importer.get_config importers) s = (Ok configs, s') →
  ∃ merged : gmap string Value,
    CombinedDataImporter.get_config importers s = (Ok (Some merged), s') ∧
    merged = foldl (λ acc config, default ∅ config ∪ acc) ∅ configs ∧
    (∀ k : string, merged !! k = last_binding k configs) ∧
    (configs = example_configs → merged = {["a" := VInt 2; "b" := VInt 3]}).
Proof.
  intros Hgather. eexists. split.
  { unfold CombinedDataImporter.get_config.
    apply (bind_ret_ok _ (λ configs, Some (reduce _ configs ∅))), Hgather. }
  split; [done|]. split.
  - intros k. rewrite reduce_merge_config_lookup, lookup_empty.
    by destruct (last_binding k configs).
  - intros ->. by vm_compute.
Qed.
End CombinedConfig.

(** ** NluDataImporter *)

Section NluFacts.
Context {E S : Type}.

(** C9: whatever importer is wrapped and whatever the arguments, the
    NLU-only decorator returns the empty Domain from [get_domain] and
    the empty StoryGraph from [get_stories], without touching the
    wrapped importer; [get_config] is the wrapped importer's
    [get_config]. *)
Theorem nlu_importer_skips_core (importer : Importer.t E S) (args : StoriesArgs) (s : S) :
  NluDataImporter.get_domain importer s = (Ok DomainOps.empty, s) ∧
  NluDataImporter.get_stories importer args s = (Ok StoryGraphOps.empty, s) ∧
  NluDataImporter.get_config importer s = Importer.get_config importer s.
Proof. repeat split. Qed.
End NluFacts.

(** ** Messages derived from stories *)

Lemma append_messages_omap (f : Event → option Message) (evs : list Event)
    (acc : list Message) :
  foldl (λ acc event,
           match f event with
           | Some message => acc ++ [message]
           | None => acc
           end) acc evs
  = acc ++ omap f evs.
Proof.
  revert acc. induction evs as [|ev evs IH]; intros acc; simpl.
  - by rewrite app_nil_r.
  - rewrite IH. destruct (f ev) as [m|]; [|done].
    by rewrite <- app_assoc.
Qed.

Lemma messages_from_stories_concat (stories : StoryGraph) :
  messages_from_stories stories
  = concat (map step_messages (story_steps stories)).
Proof.
  unfold messages_from_stories.
  assert (∀ steps acc,
    foldl (λ acc story_step,
             foldl (λ acc event,
                      match _message_from_conversation_event event with
                      | Some message => acc ++ [message]
                      | None => acc
                      end) acc (events story_step)) acc steps
    = acc ++ concat (map step_messages steps)) as Hgen.
  { induction steps as [|st steps IH]; intros acc; simpl.
    - by rewrite app_nil_r.
    - rewrite IH, append_messages_omap. by rewrite <- app_assoc. }
  apply (Hgen _ []).
Qed.

Lemma messages_from_stories_app (steps1 steps2 : list StoryStep) :
  messages_from_stories (mkStoryGraph (steps1 ++ steps2))
  = messages_from_stories (mkStoryGraph steps1)
    ++ messages_from_stories (mkStoryGraph steps2).
Proof.
  rewrite !messages_from_stories_concat. simpl.
  by rewrite map_app, concat_app.
Qed.

Lemma elem_of_messages_from_stories (stories : StoryGraph) (m : Message) :
  m ∈ messages_from_stories stories ↔
  ∃ story_step event,
    story_step ∈ story_steps stories ∧ event ∈ events story_step ∧
    _message_from_conversation_event event = Some m.
Proof.
  rewrite messages_from_stories_concat, list_elem_of_In, in_concat. split.
  - intros (l & Hl & Hm). apply in_map_iff in Hl as (st & <- & Hst).
    apply list_elem_of_In in Hm, Hst.
    apply list_elem_of_omap in Hm as (ev & Hev & Hmsg). eauto.
  - intros (st & ev & Hst & Hev & Hmsg). exists (step_messages st). split.
    + apply in_map, list_elem_of_In, Hst.
    + apply list_elem_of_In, list_elem_of_omap. eauto.
Qed.

(** ** E2EImporter: the story cache *)

Section E2EStories.
Context {E S : Type}.
Implicit Types (importer : Importer.t E S) (st : E2EImporter.state S).

Lemma get_stories_cached importer (args : StoriesArgs) st (stories : StoryGraph) :
  E2EImporter._cached_stories st = Some stories →
  E2EImporter.get_stories importer args st = (Ok stories, st).
Proof.
  intros Hc. unfold E2EImporter.get_stories, bind, E2EImporter.read_cached_stories.
  by rewrite Hc.
Qed.

Lemma get_stories_fills_cache importer (args : StoriesArgs) st st'
    (stories : StoryGraph) :
  E2EImporter.get_stories importer args st = (Ok stories, st') →
  E2EImporter._cached_stories st' = Some stories.
Proof.
  unfold E2EImporter.get_stories, bind, E2EImporter.read_cached_stories,
    E2EImporter.call, E2EImporter.write_cached_stories, ret.
  destruct (E2EImporter._cached_stories st) as [cached|] eqn:Hc.
  - intros [= <- <-]. done.
  - destruct (Importer.get_stories importer args (E2EImporter.inner st))
      as [[fetched|e] s1]; [|done].
    by intros [= <- <-].
Qed.

(** With an unset cache the wrapped importer is asked, with the
    arguments of the call. *)
Lemma get_stories_fetch importer (args : StoriesArgs) st (stories : StoryGraph) (s1 : S) :
  E2EImporter._cached_stories st = None →
  Importer.get_stories importer args (E2EImporter.inner st) = (Ok stories, s1) →
  E2EImporter.get_stories importer args st
  = (Ok stories, E2EImporter.mkState (Some stories) s1).
Proof.
  intros Hc Hfetch.
  unfold E2EImporter.get_stories, bind, E2EImporter.read_cached_stories,
    E2EImporter.call, E2EImporter.write_cached_stories, ret.
  by rewrite Hc, Hfetch.
Qed.

(** C3: once a call of [get_stories] has returned a story graph, every
    later call returns that same graph, whatever interpreter, template
    variables, [use_e2e] and exclusion percentage it is given, and
    leaves the store as it is. The later calls do not depend on the
    wrapped importer at all (the statement holds with any importer
    [other] in its place), so its [get_stories] is not invoked again. *)
Theorem get_stories_single_fetch importer (first : StoriesArgs) st st1
    (stories : StoryGraph) :
  E2EImporter.get_stories importer first st = (Ok stories, st1) →
  ∀ (other : Importer.t E S) (later : list StoriesArgs),
    run_all (map (E2EImporter.get_stories other) later) st1
    = (map (λ _, Ok stories) later, st1).
Proof.
  intros Hfirst other later.
  apply get_stories_fills_cache in Hfirst.
  induction later as [|args later IH]; simpl; [done|].
  rewrite (get_stories_cached other args st1 stories Hfirst).
  by rewrite IH.
Qed.
End E2EStories.

(** ** E2EImporter: NLU data *)

Section E2ENluData.
Context {E S : Type}.
Variable default_action_names : list string.
Implicit Types (importer : Importer.t E S) (st : E2EImporter.state S).

Lemma additional_training_data_from_stories_ok importer st st'
    (stories : StoryGraph) :
  E2EImporter.get_stories importer default_stories_args st = (Ok stories, st') →
  E2EImporter._additional_training_data_from_stories importer st
  = (Ok (mkTrainingData (messages_from_stories stories)), st').
Proof.
  intros Hs. unfold E2EImporter._additional_training_data_from_stories, bind, ret.
  by rewrite Hs.
Qed.

(** With [only_nlu] the list holding the default-action examples is
    replaced by the gathered list, which holds the wrapped importer's
    data alone. *)
Lemma get_nlu_data_only_nlu importer (language : option string) st
    (nlu : TrainingData) (s1 : S) :
  Importer.get_nlu_data importer language (E2EImporter.inner st) = (Ok nlu, s1) →
  E2EImporter.get_nlu_data default_action_names importer language true st
  = (Ok (mkTrainingData (training_examples nlu)),
     E2EImporter.mkState (E2EImporter._cached_stories st) s1).
Proof.
  intros Hnlu.
  unfold E2EImporter.get_nlu_data, bind, ret, gather, E2EImporter.call. simpl.
  by rewrite Hnlu.
Qed.

(** Without [only_nlu] the three sources are concatenated: the
    default-action examples, the wrapped importer's data and the
    messages derived from the stories. *)
Lemma get_nlu_data_with_stories importer (language : option string) st st2
    (nlu : TrainingData) (s1 : S) (stories : StoryGraph) :
  Importer.get_nlu_data importer language (E2EImporter.inner st) = (Ok nlu, s1) →
  E2EImporter.get_stories importer default_stories_args
    (E2EImporter.mkState (E2EImporter._cached_stories st) s1) = (Ok stories, st2) →
  E2EImporter.get_nlu_data default_action_names importer language false st
  = (Ok (mkTrainingData
           (training_examples
              (_additional_training_data_from_default_actions default_action_names)
            ++ training_examples nlu
            ++ messages_from_stories stories)),
     st2).
Proof.
  intros Hnlu Hstories.
  apply additional_training_data_from_stories_ok in Hstories.
  unfold E2EImporter.get_nlu_data, bind, ret, gather, E2EImporter.call. simpl.
  rewrite Hnlu, Hstories. simpl.
  unfold TrainingDataOps.merge. simpl. by rewrite <- app_assoc.
Qed.
End E2ENluData.

Lemma py_or_falsy (t : option string) : truthy t = false → py_or t EmptyString = EmptyString.
Proof.
  destruct t as [s|]; simpl; [|done].
  by destruct (String.eqb s EmptyString).
Qed.

Lemma py_or_truthy (s : string) : s ≠ EmptyString → py_or (Some s) EmptyString = s.
Proof.
  intros Hs. simpl. destruct (String.eqb_spec s EmptyString); done.
Qed.

Lemma action_data_insert (action_name action_text : string) :
  <[ ACTION_TEXT := action_text ]> {[ MESSAGE_ACTION_NAME := action_name ]}
  =@{gmap Attribute string}
  {[ MESSAGE_ACTION_NAME := action_name; ACTION_TEXT := action_text ]}.
Proof. rewrite <- !insert_empty. by apply insert_insert_ne. Qed.

Lemma messages_from_stories_split (steps1 steps2 : list StoryStep)
    (evs1 evs2 : list Event) (event : Event) :
  messages_from_stories
    (mkStoryGraph (steps1 ++ mkStoryStep (evs1 ++ event :: evs2) :: steps2))
  = messages_from_stories (mkStoryGraph (steps1 ++ [mkStoryStep evs1]))
    ++ option_list (_message_from_conversation_event event)
    ++ messages_from_stories (mkStoryGraph (mkStoryStep evs2 :: steps2)).
Proof.
  rewrite !messages_from_stories_concat. simpl.
  rewrite !map_app, !concat_app. simpl. unfold step_messages. simpl.
  rewrite omap_app. simpl. rewrite app_nil_r, <- !app_assoc. f_equal. f_equal.
  destruct (_message_from_conversation_event event); by rewrite <- ?app_assoc.
Qed.

Section E2EMessages.
Context {E S : Type}.
Variable default_action_names : list string.
Implicit Types (importer : Importer.t E S) (st : E2EImporter.state S).

(** C5: for the story graph of the example, [get_nlu_data] without
    [only_nlu] returns data holding a message with the intent label
    "reserve" and a message whose text is "Sure, done!", whose action
    name is "utter_confirm" and whose action text repeats
    "Sure, done!". *)
Theorem get_nlu_data_example importer (language : option string) st st2
    (nlu : TrainingData) (s1 : S) :
  Importer.get_nlu_data importer language (E2EImporter.inner st) = (Ok nlu, s1) →
  E2EImporter.get_stories importer default_stories_args
    (E2EImporter.mkState (E2EImporter._cached_stories st) s1)
    = (Ok example_story_graph, st2) →
  ∃ (result : TrainingData) (user_message action_message : Message),
    E2EImporter.get_nlu_data default_action_names importer language false st
      = (Ok result, st2) ∧
    user_message ∈ training_examples result ∧
    data user_message !! MESSAGE_INTENT_NAME = Some "reserve" ∧
    action_message ∈ training_examples result ∧
    text action_message = "Sure, done!" ∧
    data action_message !! MESSAGE_ACTION_NAME = Some "utter_confirm" ∧
    data action_message !! ACTION_TEXT = Some "Sure, done!".
Proof.
  intros Hnlu Hstories.
  eexists _, (_messages_from_user_utterance "book a table" "reserve"),
    (_messages_from_action "utter_confirm" (Some "Sure, done!")).
  split; [by eapply get_nlu_data_with_stories|].
  simpl. rewrite !elem_of_app.
  split; [right; right; apply elem_of_cons; by left|].
  split; [done|].
  split; [right; right; apply elem_of_cons; right; apply elem_of_cons; by left|].
  done.
Qed.

(** C2, as amended: an executed action whose end-to-end text is absent
    or empty contributes one message to the story-derived training
    data, at the place of the event: a message with the empty text, the
    action name of the event and an empty action text. (An executed
    action with an end-to-end text contributes one message as well,
    with that text as its text and as its action text.) *)
Theorem action_without_text_yields_message importer st st'
    (steps1 steps2 : list StoryStep) (evs1 evs2 : list Event)
    (action_name : string) (e2e_text : option string) :
  E2EImporter.get_stories importer default_stories_args st
    = (Ok (mkStoryGraph
             (steps1
              ++ mkStoryStep (evs1 ++ ActionExecuted action_name e2e_text :: evs2)
              :: steps2)), st') →
  ∃ message : Message,
    E2EImporter._additional_training_data_from_stories importer st
    = (Ok (mkTrainingData
             (messages_from_stories (mkStoryGraph (steps1 ++ [mkStoryStep evs1]))
              ++ [message]
              ++ messages_from_stories (mkStoryGraph (mkStoryStep evs2 :: steps2)))),
       st') ∧
    (truthy e2e_text = false →
     message = mkMessage EmptyString {[ MESSAGE_ACTION_NAME := action_name;
                                        ACTION_TEXT := EmptyString ]}) ∧
    (∀ s : string, e2e_text = Some s → s ≠ EmptyString →
     message = mkMessage s {[ MESSAGE_ACTION_NAME := action_name;
                              ACTION_TEXT := s ]}).
Proof.
  intros Hstories. exists (_messages_from_action action_name e2e_text).
  split; [|split].
  - rewrite (additional_training_data_from_stories_ok _ _ _ _ Hstories).
    by rewrite messages_from_stories_split.
  - intros Hfalsy. unfold _messages_from_action.
    by rewrite (py_or_falsy _ Hfalsy), action_data_insert.
  - intros s -> Hs. unfold _messages_from_action.
    by rewrite (py_or_truthy _ Hs), action_data_insert.
Qed.
End E2EMessages.

(** ** Attributes of the synthesised messages *)

(** C8, as amended: a message synthesised by the E2EImporter carries
    either an intent label or an action name, never both. The
    story-derived messages are exactly these: for each user utterance
    of the stories a message with the text of the utterance and the
    intent attribute only; for each executed action of the stories a
    message with the action name and the action text, the action text
    repeating the text of the message, which is the end-to-end text of
    the event (both are empty when the event has no end-to-end text).
    The default-action messages are exactly one per default action
    name, with the empty text and the action name only. *)
Theorem synthesized_message_attributes (default_action_names : list string)
    (stories : StoryGraph) :
  (∀ m : Message,
     m ∈ messages_from_stories stories ↔
     (∃ (story_step : StoryStep) (text intent_name : string),
        story_step ∈ story_steps stories ∧
        UserUttered text intent_name ∈ events story_step ∧
        m = mkMessage text {[ MESSAGE_INTENT_NAME := intent_name ]}) ∨
     (∃ (story_step : StoryStep) (action_name : string) (e2e_text : option string),
        story_step ∈ story_steps stories ∧
        ActionExecuted action_name e2e_text ∈ events story_step ∧
        m = mkMessage (available_text e2e_text)
                      {[ MESSAGE_ACTION_NAME := action_name;
                         ACTION_TEXT := available_text e2e_text ]})) ∧
  (∀ m : Message,
     m ∈ training_examples
           (_additional_training_data_from_default_actions default_action_names) ↔
     ∃ action_name : string,
       action_name ∈ default_action_names ∧
       m = mkMessage EmptyString {[ MESSAGE_ACTION_NAME := action_name ]}) ∧
  (∀ e2e_text : option string,
     truthy e2e_text = false → available_text e2e_text = EmptyString) ∧
  (∀ m : Message,
     m ∈ messages_from_stories stories ∨
     m ∈ training_examples
           (_additional_training_data_from_default_actions default_action_names) →
     ¬ (is_Some (data m !! MESSAGE_INTENT_NAME) ∧
        is_Some (data m !! MESSAGE_ACTION_NAME)) ∧
     (dom (data m) = {[ MESSAGE_INTENT_NAME ]} ∨
      (dom (data m) = {[ MESSAGE_ACTION_NAME; ACTION_TEXT ]} ∧
       data m !! ACTION_TEXT = Some (text m)) ∨
      (dom (data m) = {[ MESSAGE_ACTION_NAME ]} ∧ text m = EmptyString))).
Proof.
  assert (∀ e2e_text : option string,
            py_or e2e_text EmptyString = available_text e2e_text) as Havailable.
  { intros [s|]; simpl; [|done]. by destruct (String.eqb_spec s EmptyString). }
  assert (∀ m : Message,
     m ∈ messages_from_stories stories ↔
     (∃ (story_step : StoryStep) (text intent_name : string),
        story_step ∈ story_steps stories ∧
        UserUttered text intent_name ∈ events story_step ∧
        m = mkMessage text {[ MESSAGE_INTENT_NAME := intent_name ]}) ∨
     (∃ (story_step : StoryStep) (action_name : string) (e2e_text : option string),
        story_step ∈ story_steps stories ∧
        ActionExecuted action_name e2e_text ∈ events story_step ∧
        m = mkMessage (available_text e2e_text)
                      {[ MESSAGE_ACTION_NAME := action_name;
                         ACTION_TEXT := available_text e2e_text ]})) as Hstory.
  { intros m. rewrite elem_of_messages_from_stories. split.
    - intros (st & ev & Hst & Hev & Hmsg).
      destruct ev as [t i|n t|ty]; simplify_eq/=.
      + left. by exists st, t, i.
      + right. exists st, n, t. split; [done|]. split; [done|].
        unfold _messages_from_action.
        by rewrite Havailable, action_data_insert.
    - intros [(st & t & i & Hst & Hev & ->)|(st & n & t & Hst & Hev & ->)].
      + by exists st, (UserUttered t i).
      + exists st, (ActionExecuted n t). split; [done|]. split; [done|].
        simpl. unfold _messages_from_action.
        by rewrite Havailable, action_data_insert. }
  assert (∀ m : Message,
     m ∈ training_examples
           (_additional_training_data_from_default_actions default_action_names) ↔
     ∃ action_name : string,
       action_name ∈ default_action_names ∧
       m = mkMessage EmptyString {[ MESSAGE_ACTION_NAME := action_name ]})
    as Hdefault.
  { intros m. simpl. rewrite list_elem_of_In, in_map_iff. split.
    - intros (n & <- & Hn). exists n. by rewrite list_elem_of_In.
    - intros (n & Hn & ->). exists n. by rewrite <- list_elem_of_In. }
  split; [exact Hstory|]. split; [exact Hdefault|]. split.
  { intros [s|]; simpl; [|done]. by destruct (String.eqb_spec s EmptyString). }
  intros m Hsynth.
  assert ((∃ t i, m = mkMessage t {[ MESSAGE_INTENT_NAME := i ]}) ∨
          (∃ n t, m = mkMessage t {[ MESSAGE_ACTION_NAME := n; ACTION_TEXT := t ]}) ∨
          (∃ n, m = mkMessage EmptyString {[ MESSAGE_ACTION_NAME := n ]}))
    as Hshape.
  { destruct Hsynth as [Hm|Hm].
    - apply Hstory in Hm
        as [(st & t & i & _ & _ & ->)|(st & n & t & _ & _ & ->)]; eauto.
    - apply Hdefault in Hm as (n & _ & ->). eauto. }
  destruct Hshape as [(t & i & ->)|[(n & t & ->)|(n & ->)]]; simpl.
  - split.
    + intros [_ [y Ha]]. by rewrite lookup_singleton_ne in Ha.
    + left. by rewrite dom_singleton_L.
  - split.
    + intros [[x Hi] _].
      rewrite lookup_insert_ne, lookup_singleton_ne in Hi; done.
    + right. left. split.
      * rewrite dom_insert_L, dom_singleton_L. set_solver.
      * by rewrite lookup_insert_ne, lookup_singleton_eq.
  - split.
    + intros [[x Hi] _]. by rewrite lookup_singleton_ne in Hi.
    + right. right. by rewrite dom_singleton_L.
Qed.

(** ** E2EImporter: the domain *)

Lemma elem_of_e2e_action_names (evs : list Event) (name : string) :
  name ∈ e2e_action_names evs ↔
  ∃ e2e_text : string, ActionExecuted name (Some e2e_text) ∈ evs ∧ e2e_text ≠ EmptyString.
Proof.
  unfold e2e_action_names. rewrite list_elem_of_omap. split.
  - intros (ev & Hev & Hname).
    destruct ev as [|n [t|]|]; simplify_eq/=.
    destruct (String.eqb_spec t EmptyString); simplify_eq/=. eauto.
  - intros (t & Hev & Ht). eexists. split; [done|]. simpl.
    by destruct (String.eqb_spec t EmptyString).
Qed.

Lemma collected_e2e_action_names (steps : list StoryStep) (acc : list string)
    (name : string) :
  name ∈ foldl (λ acc story_step, acc ++ e2e_action_names (events story_step))
               acc steps ↔
  name ∈ acc ∨ e2e_action_in (mkStoryGraph steps) name.
Proof.
  unfold e2e_action_in. simpl. revert acc.
  induction steps as [|st steps IH]; intros acc; simpl.
  - split; [by left|]. intros [H|(st & t & Hst & _)]; [done|].
    by apply elem_of_nil in Hst.
  - rewrite IH, elem_of_app, elem_of_e2e_action_names. split.
    + intros [[H|(t & Hev & Ht)]|(st' & t & Hst & Hev & Ht)].
      * by left.
      * right. exists st, t. split; [apply elem_of_cons; by left|done].
      * right. exists st', t. split; [apply elem_of_cons; by right|done].
    + intros [H|(st' & t & Hst & Hev & Ht)]; [by left; left|].
      apply elem_of_cons in Hst as [->|Hst].
      * left. right. eauto.
      * right. eauto.
Qed.

Section E2EDomain.
Context {E S : Type}.
Implicit Types (importer : Importer.t E S) (st : E2EImporter.state S).

(** C4: [get_domain] returns the wrapped importer's domain merged with
    a derived domain. The derived domain has no intents, entities,
    slots, templates or forms; its actions are exactly the names of the
    executed actions of the story graph that carry a non-empty
    end-to-end text. These names are therefore actions of the returned
    domain whatever the wrapped domain declares; for the story graph of
    the example this is "utter_confirm". *)
Theorem get_domain_adds_e2e_actions importer st st2 (original : Domain) (s1 : S)
    (stories : StoryGraph) :
  Importer.get_domain importer (E2EImporter.inner st) = (Ok original, s1) →
  E2EImporter.get_stories importer default_stories_args
    (E2EImporter.mkState (E2EImporter._cached_stories st) s1) = (Ok stories, st2) →
  ∃ e2e_domain : Domain,
    E2EImporter.get_domain importer st
      = (Ok (DomainOps.merge original e2e_domain), st2) ∧
    intents e2e_domain = ∅ ∧ entities e2e_domain = ∅ ∧ slots e2e_domain = ∅ ∧
    templates e2e_domain = ∅ ∧ form_names e2e_domain = ∅ ∧
    (∀ name : string,
       name ∈ action_names e2e_domain ↔ e2e_action_in stories name) ∧
    (∀ name : string,
       name ∈ action_names (DomainOps.merge original e2e_domain) ↔
       name ∈ action_names original ∨ e2e_action_in stories name) ∧
    (stories = example_story_graph →
     "utter_confirm" ∈ action_names (DomainOps.merge original e2e_domain)).
Proof.
  intros Hdomain Hstories.
  assert (∀ name : string,
    name ∈ (list_to_set (elements (list_to_set
        (foldl (λ acc story_step, acc ++ e2e_action_names (events story_step))
               [] (story_steps stories)) : gset string)) : gset string)
    ↔ e2e_action_in stories name) as Hnames.
  { intros name. rewrite list_to_set_elements_L, elem_of_list_to_set.
    rewrite collected_e2e_action_names. destruct stories as [steps]. simpl.
    split; [|by right]. intros [H|H]; [|done]. by apply elem_of_nil in H. }
  eexists. split.
  { unfold E2EImporter.get_domain, bind, gather2, E2EImporter.call,
      E2EImporter._get_domain_with_e2e_actions, bind, ret.
    rewrite Hdomain, Hstories. simpl. reflexivity. }
  simpl. do 5 (split; [done|]). split; [|split].
  - apply Hnames.
  - intros name. rewrite elem_of_union. by rewrite Hnames.
  - intros ->. apply elem_of_union. right. apply Hnames.
    exists (mkStoryStep [UserUttered "book a table" "reserve";
                         ActionExecuted "utter_confirm" (Some "Sure, done!")]),
      "Sure, done!".
    split; [apply elem_of_cons; by left|].
    split; [|done]. apply elem_of_cons; right; apply elem_of_cons; by left.
Qed.
End E2EDomain.

(** ** Instances of the theorems *)

Lemma get_stories_single_fetch_witness :
  E2EImporter.get_stories
    (fixed_importer DomainOps.empty example_story_graph false None TrainingDataOps.empty)
    (mkStoriesArgs RegexInterpreter None true None) (E2EImporter.init 0%nat)
  = (Ok example_story_graph, E2EImporter.mkState (Some example_story_graph) 1%nat) ∧
  run_all
    (map (E2EImporter.get_stories
            (fixed_importer DomainOps.empty example_story_graph false None
                            TrainingDataOps.empty))
         [default_stories_args;
          mkStoriesArgs (CustomInterpreter "nlu") None false (Some 50%Z)])
    (E2EImporter.mkState (Some example_story_graph) 1%nat)
  = ([Ok example_story_graph; Ok example_story_graph],
     E2EImporter.mkState (Some example_story_graph) 1%nat).
Proof.
  split; [reflexivity|].
  apply (get_stories_single_fetch
           (fixed_importer DomainOps.empty example_story_graph false None
                           TrainingDataOps.empty)
           (mkStoriesArgs RegexInterpreter None true None)
           (E2EImporter.init 0%nat)
           (E2EImporter.mkState (Some example_story_graph) 1%nat)
           example_story_graph eq_refl
           (fixed_importer DomainOps.empty example_story_graph false None
                           TrainingDataOps.empty)
           [default_stories_args;
            mkStoriesArgs (CustomInterpreter "nlu") None false (Some 50%Z)]).
Defined.

Lemma combined_failure_propagates_witness :
  child_outcomes GetDomain
    [example_importer; failing_importer "cannot read domain.yml"; greet_importer]
    0%nat !! 1%nat
  = Some (Raise "cannot read domain.yml") ∧
  (∃ (j : nat) (e' : string),
     child_outcomes GetDomain
       [example_importer; failing_importer "cannot read domain.yml"; greet_importer]
       0%nat !! j = Some (Raise e') ∧
     combined_outcome GetDomain
       [example_importer; failing_importer "cannot read domain.yml"; greet_importer]
       0%nat = Raise e') ∧
  ((∀ (k : nat) (e' : string),
      child_outcomes GetDomain
        [example_importer; failing_importer "cannot read domain.yml"; greet_importer]
        0%nat !! k = Some (Raise e') → e' = "cannot read domain.yml") →
   combined_outcome GetDomain
     [example_importer; failing_importer "cannot read domain.yml"; greet_importer]
     0%nat = Raise "cannot read domain.yml").
Proof.
  split; [reflexivity|].
  apply (combined_failure_propagates GetDomain
           [example_importer; failing_importer "cannot read domain.yml"; greet_importer]
           0%nat 1%nat "cannot read domain.yml").
  reflexivity.
Defined.

Lemma combined_get_config_union_witness :
  gather (map Importer.get_config [first_config_importer; second_config_importer])
         0%nat
  = (Ok example_configs, 0%nat) ∧
  ∃ merged : gmap string Value,
    CombinedDataImporter.get_config
      [first_config_importer; second_config_importer] 0%nat
      = (Ok (Some merged), 0%nat) ∧
    merged = foldl (λ acc config, default ∅ config ∪ acc) ∅ example_configs ∧
    (∀ k : string, merged !! k = last_binding k example_configs) ∧
    (example_configs = example_configs →
     merged = {[ "a" := VInt 2; "b" := VInt 3 ]}).
Proof.
  split; [reflexivity|].
  apply (combined_get_config_union
           [first_config_importer; second_config_importer] 0%nat 0%nat
           example_configs).
  reflexivity.
Defined.

Lemma get_nlu_data_example_witness :
  Importer.get_nlu_data example_importer (Some "en")
    (E2EImporter.inner (E2EImporter.init 0%nat))
  = (Ok (mkTrainingData [greet_message]), 0%nat) ∧
  E2EImporter.get_stories example_importer default_stories_args
    (E2EImporter.mkState
       (E2EImporter._cached_stories (E2EImporter.init 0%nat)) 0%nat)
  = (Ok example_story_graph,
     E2EImporter.mkState (Some example_story_graph) 1%nat) ∧
  ∃ (result : TrainingData) (user_message action_message : Message),
    E2EImporter.get_nlu_data ["action_listen"; "action_restart"] example_importer
      (Some "en") false (E2EImporter.init 0%nat)
      = (Ok result, E2EImporter.mkState (Some example_story_graph) 1%nat) ∧
    user_message ∈ training_examples result ∧
    data user_message !! MESSAGE_INTENT_NAME = Some "reserve" ∧
    action_message ∈ training_examples result ∧
    text action_message = "Sure, done!" ∧
    data action_message !! MESSAGE_ACTION_NAME = Some "utter_confirm" ∧
    data action_message !! ACTION_TEXT = Some "Sure, done!".
Proof.
  split; [reflexivity|]. split; [reflexivity|].
  apply (get_nlu_data_example ["action_listen"; "action_restart"] example_importer
           (Some "en") (E2EImporter.init 0%nat)
           (E2EImporter.mkState (Some example_story_graph) 1%nat)
           (mkTrainingData [greet_message]) 0%nat);
    reflexivity.
Defined.

Lemma get_domain_adds_e2e_actions_witness :
  Importer.get_domain example_importer (E2EImporter.inner (E2EImporter.init 0%nat))
  = (Ok DomainOps.empty, 0%nat) ∧
  E2EImporter.get_stories example_importer default_stories_args
    (E2EImporter.mkState
       (E2EImporter._cached_stories (E2EImporter.init 0%nat)) 0%nat)
  = (Ok example_story_graph,
     E2EImporter.mkState (Some example_story_graph) 1%nat) ∧
  ∃ e2e_domain : Domain,
    E2EImporter.get_domain example_importer (E2EImporter.init 0%nat)
      = (Ok (DomainOps.merge DomainOps.empty e2e_domain),
         E2EImporter.mkState (Some example_story_graph) 1%nat) ∧
    intents e2e_domain = ∅ ∧ entities e2e_domain = ∅ ∧ slots e2e_domain = ∅ ∧
    templates e2e_domain = ∅ ∧ form_names e2e_domain = ∅ ∧
    (∀ name : string,
       name ∈ action_names e2e_domain ↔ e2e_action_in example_story_graph name) ∧
    (∀ name : string,
       name ∈ action_names (DomainOps.merge DomainOps.empty e2e_domain) ↔
       name ∈ action_names DomainOps.empty ∨
       e2e_action_in example_story_graph name) ∧
    (example_story_graph = example_story_graph →
     "utter_confirm" ∈ action_names (DomainOps.merge DomainOps.empty e2e_domain)).
Proof.
  split; [reflexivity|]. split; [reflexivity|].
  apply (get_domain_adds_e2e_actions example_importer (E2EImporter.init 0%nat)
           (E2EImporter.mkState (Some example_story_graph) 1%nat)
           DomainOps.empty 0%nat example_story_graph);
    reflexivity.
Defined.

Lemma action_without_text_yields_message_witness :
  E2EImporter.get_stories greet_importer default_stories_args (E2EImporter.init 0%nat)
  = (Ok (mkStoryGraph
           ([] ++ mkStoryStep ([UserUttered "hi" "greet"]
                               ++ ActionExecuted "utter_greet" None :: [])
               :: [])),
     E2EImporter.mkState (Some greet_story_graph) 1%nat) ∧
  ∃ message : Message,
    E2EImporter._additional_training_data_from_stories greet_importer
      (E2EImporter.init 0%nat)
    = (Ok (mkTrainingData
             (messages_from_stories
                (mkStoryGraph ([] ++ [mkStoryStep [UserUttered "hi" "greet"]]))
              ++ [message]
              ++ messages_from_stories (mkStoryGraph (mkStoryStep [] :: [])))),
       E2EImporter.mkState (Some greet_story_graph) 1%nat) ∧
    (truthy None = false →
     message = mkMessage EmptyString {[ MESSAGE_ACTION_NAME := "utter_greet";
                                        ACTION_TEXT := EmptyString ]}) ∧
    (∀ s : string, None = Some s → s ≠ EmptyString →
     message = mkMessage s {[ MESSAGE_ACTION_NAME := "utter_greet";
                              ACTION_TEXT := s ]}).
Proof.
  split; [reflexivity|].
  apply (action_without_text_yields_message greet_importer (E2EImporter.init 0%nat)
           (E2EImporter.mkState (Some greet_story_graph) 1%nat)
           [] [] [UserUttered "hi" "greet"] [] "utter_greet" None).
  reflexivity.
Defined.

Lemma synthesized_message_attributes_witness :
  (greet_action_message ∈ messages_from_stories greet_story_graph ∨
   greet_action_message
     ∈ training_examples
         (_additional_training_data_from_default_actions
            ["action_listen"; "action_restart"])) ∧
  ¬ (is_Some (data greet_action_message !! MESSAGE_INTENT_NAME) ∧
     is_Some (data greet_action_message !! MESSAGE_ACTION_NAME)) ∧
  (dom (data greet_action_message) = {[ MESSAGE_INTENT_NAME ]} ∨
   (dom (data greet_action_message) = {[ MESSAGE_ACTION_NAME; ACTION_TEXT ]} ∧
    data greet_action_message !! ACTION_TEXT = Some (text greet_action_message)) ∨
   (dom (data greet_action_message) = {[ MESSAGE_ACTION_NAME ]} ∧
    text greet_action_message = EmptyString)).
Proof.
  assert (greet_action_message ∈ messages_from_stories greet_story_graph) as Hin.
  { apply (bool_decide_unpack _). vm_compute. exact I. }
  split; [by left|].
  apply (proj2 (proj2 (proj2
           (synthesized_message_attributes ["action_listen"; "action_restart"]
              greet_story_graph)))
           greet_action_message (or_introl Hin)).
Defined.

(** ** Where the code departs from its description *)

(** C2, as stated, fails: the story of [greet_story_graph] has one
    executed action, without end-to-end text, and the story-derived
    training data holds a message for it, after the message of the user
    utterance; the data returned by [get_nlu_data] holds it too. *)
Lemma action_without_text_counterexample :
  truthy None = false ∧
  E2EImporter._additional_training_data_from_stories greet_importer
    (E2EImporter.init 0%nat)
  = (Ok (mkTrainingData
           [mkMessage "hi" {[ MESSAGE_INTENT_NAME := "greet" ]};
            greet_action_message]),
     E2EImporter.mkState (Some greet_story_graph) 1%nat) ∧
  E2EImporter.get_nlu_data ["action_listen"] greet_importer (Some "en") false
    (E2EImporter.init 0%nat)
  = (Ok (mkTrainingData
           [mkMessage EmptyString {[ MESSAGE_ACTION_NAME := "action_listen" ]};
            mkMessage "hi" {[ MESSAGE_INTENT_NAME := "greet" ]};
            greet_action_message]),
     E2EImporter.mkState (Some greet_story_graph) 1%nat).
Proof. split; [reflexivity|]. split; by vm_compute. Qed.

(** C8, as stated, fails: the message derived from an executed action
    without end-to-end text carries the action-text attribute next to
    the action name. *)
Lemma action_text_without_e2e_text_counterexample :
  truthy None = false ∧
  _message_from_conversation_event (ActionExecuted "utter_greet" None)
  = Some greet_action_message ∧
  data greet_action_message !! ACTION_TEXT = Some EmptyString ∧
  dom (data greet_action_message) ≠ {[ MESSAGE_ACTION_NAME ]}.
Proof.
  split; [reflexivity|]. split; [by vm_compute|]. split; [by vm_compute|].
  intros Hdom.
  assert (ACTION_TEXT ∈ dom (data greet_action_message)) as Hin.
  { apply elem_of_dom. by exists EmptyString. }
  rewrite Hdom in Hin. by apply elem_of_singleton in Hin.
Qed.

(** C1: with [only_nlu] the data returned by [get_nlu_data] is the
    wrapped importer's data alone. The messages of the stories are left
    out, and so are the default-action messages: the list that holds
    them is overwritten by the gathered list instead of being
    extended. *)
Theorem only_nlu_drops_default_actions :
  E2EImporter.get_nlu_data ["action_listen"; "action_restart"] example_importer
    (Some "en") true (E2EImporter.init 0%nat)
  = (Ok (mkTrainingData [greet_message]), E2EImporter.init 0%nat) ∧
  mkMessage EmptyString {[ MESSAGE_ACTION_NAME := "action_listen" ]}
    ∈ training_examples
        (_additional_training_data_from_default_actions
           ["action_listen"; "action_restart"]) ∧
  (mkMessage EmptyString {[ MESSAGE_ACTION_NAME := "action_listen" ]} ∉ [greet_message]) ∧
  (∀ m : Message, m ∈ messages_from_stories example_story_graph →
                  m ∉ [greet_message]).
Proof.
  split; [reflexivity|]. split; [apply elem_of_cons; by left|].
  split.
  - intros Hin. apply list_elem_of_singleton in Hin. discriminate Hin.
  - intros m Hm Hin. apply list_elem_of_singleton in Hin. subst m.
    revert Hm. apply (bool_decide_unpack _). by vm_compute.
Qed.

(** * Further properties of the importers *)

(** ** The aggregator: success, failure and nesting *)

Section GatherOutcome.
Context {E S A : Type}.
Implicit Types (rs : list (result E A)) (aws : list (M E S A)).

Lemma first_error_outcome rs : first_error (map outcome rs) = first_error rs.
Proof.
  unfold first_error. induction rs as [|[a|e] rest IH]; simpl; done.
Qed.

Lemma collect_outcome rs :
  outcome (collect rs)
  = match first_error rs with Some e => Raise e | None => Ok tt end.
Proof.
  induction rs as [|[a|e] rest IH]; simpl; [done| |done].
  change (first_error (Ok a :: rest)) with (first_error rest).
  rewrite <- IH. by destruct (collect rest).
Qed.

Lemma first_error_none rs :
  first_error rs = None ↔ Forall (λ r, outcome r = Ok tt) rs.
Proof.
  unfold first_error. induction rs as [|[a|e] rest IH]; simpl.
  - split; [constructor|done].
  - rewrite IH. split; [by constructor|]. by inversion 1.
  - split; [done|]. inversion 1; simplify_eq/=.
Qed.

Lemma gather_then_reduce_outcome {B} aws (f : list A → B) (s : S) :
  outcome (bind (gather aws) (λ xs, ret (f xs)) s).1
  = match first_error (map outcome (run_all aws s).1) with
    | Some e => Raise e
    | None => Ok tt
    end.
Proof.
  rewrite bind_ret_outcome, gather_outcome, first_error_outcome. simpl.
  apply collect_outcome.
Qed.

Lemma collect_app rs1 rs2 :
  collect (rs1 ++ rs2)
  = match collect rs1 with
    | Raise e => Raise e
    | Ok vs1 =>
        match collect rs2 with
        | Ok vs2 => Ok (vs1 ++ vs2)
        | Raise e => Raise e
        end
    end.
Proof.
  induction rs1 as [|[a|e] rest IH]; simpl.
  - by destruct (collect rs2).
  - rewrite IH. destruct (collect rest); [|done]. by destruct (collect rs2).
  - done.
Qed.

Lemma run_all_app aws1 aws2 (s : S) :
  run_all (aws1 ++ aws2) s
  = ((run_all aws1 s).1 ++ (run_all aws2 (run_all aws1 s).2).1,
     (run_all aws2 (run_all aws1 s).2).2).
Proof.
  revert s. induction aws1 as [|c rest IH]; intros s; simpl.
  - by destruct (run_all aws2 s).
  - destruct (c s) as [r s1]. rewrite IH.
    destruct (run_all rest s1) as [rs s2]. simpl.
    by destruct (run_all aws2 s2).
Qed.
End GatherOutcome.

Section CombinedOutcome.
Context {E S : Type}.
Implicit Types (importers : list (Importer.t E S)) (s : S).

(** X1: each of the four operations of the aggregator succeeds exactly
    when the call of every child succeeds; when it fails, the exception
    it raises is the exception of one of the failed children. *)
Theorem combined_succeeds_iff_children_succeed (op : Operation) importers s :
  (combined_outcome op importers s = Ok tt ↔
   Forall (λ r, r = Ok tt) (child_outcomes op importers s)) ∧
  (∀ e : E,
     combined_outcome op importers s = Raise e →
     ∃ j : nat, child_outcomes op importers s !! j = Some (Raise e)).
Proof.
  assert (combined_outcome op importers s
          = match first_error (child_outcomes op importers s) with
            | Some e => Raise e
            | None => Ok tt
            end) as Houtcome.
  { destruct op; simpl; apply gather_then_reduce_outcome. }
  rewrite Houtcome.
  destruct (first_error (child_outcomes op importers s)) as [e|] eqn:Hfirst.
  - split.
    + split; [done|]. intros Hall.
      assert (first_error (child_outcomes op importers s) = None) as Hnone.
      { apply first_error_none. eapply Forall_impl; [exact Hall|].
        by intros r ->. }
      congruence.
    + intros e' [= <-]. unfold first_error in Hfirst.
      apply head_Some_elem_of, list_elem_of_omap in Hfirst as (r & Hr & He).
      destruct r as [[]|e0]; simplify_eq/=.
      by apply list_elem_of_lookup in Hr.
  - split; [|done]. split; [|done]. intros _.
    apply first_error_none in Hfirst.
    eapply Forall_impl; [exact Hfirst|]. by intros [[]|e].
Qed.
End CombinedOutcome.

Section FoldGroups.
Context {E S A B : Type}.
Variables (f : B → A → B) (e : B) (wrap : B → A).
Hypothesis absorb : ∀ (acc : B) (vs : list A),
  f acc (wrap (foldl f e vs)) = foldl f acc vs.

Local Abbreviation summary := (λ rs : list (result E A),
  match collect rs with
  | Ok vs => Ok (wrap (foldl f e vs))
  | Raise err => Raise err
  end).

Local Abbreviation fold_group := (λ group : list (M E S A),
  bind (gather group) (λ xs, ret (wrap (foldl f e xs)))).

Lemma run_all_fold_groups (groups : list (list (M E S A))) (s : S) :
  run_all (map fold_group groups) s
  = (map summary (run_groups groups s).1, (run_groups groups s).2).
Proof.
  assert (∀ group s, fold_group group s
            = (summary (run_all group s).1, (run_all group s).2)) as Hgroup.
  { intros group s0. unfold bind, gather, ret.
    destruct (run_all group s0) as [rs s1]. simpl. by destruct (collect rs). }
  revert s. induction groups as [|group rest IH]; intros s; [done|].
  cbn [map run_all run_groups]. rewrite Hgroup, IH.
  destruct (run_all group s) as [rs s1]. cbn [fst snd].
  by destruct (run_groups rest s1) as [rss s2].
Qed.

Lemma run_all_concat_groups (groups : list (list (M E S A))) (s : S) :
  run_all (concat groups) s
  = (concat (run_groups groups s).1, (run_groups groups s).2).
Proof.
  revert s. induction groups as [|group rest IH]; intros s; simpl; [done|].
  rewrite run_all_app, IH.
  destruct (run_all group s) as [rs s1]. simpl.
  by destruct (run_groups rest s1).
Qed.

Lemma fold_summaries (rss : list (list (result E A))) (acc : B) :
  match collect (map summary rss) with
  | Ok ws => Ok (foldl f acc ws)
  | Raise err => Raise err
  end
  = match collect (concat rss) with
    | Ok vs => Ok (foldl f acc vs)
    | Raise err => Raise (E:=E) err
    end.
Proof.
  revert acc. induction rss as [|rs rest IH]; intros acc; simpl; [done|].
  rewrite collect_app. destruct (collect rs) as [vs1|err]; [|done].
  specialize (IH (foldl f acc vs1)).
  destruct (collect (map summary rest)) as [ws|err1],
           (collect (concat rest)) as [vs2|err2]; simplify_eq/=.
  - by rewrite absorb, foldl_app, IH.
  - done.
Qed.

(** Folding the folds of the groups is folding all the awaitables. *)
Lemma fold_groups_flatten (groups : list (list (M E S A))) (s : S) :
  bind (gather (map fold_group groups)) (λ xs, ret (foldl f e xs)) s
  = bind (gather (concat groups)) (λ xs, ret (foldl f e xs)) s.
Proof.
  unfold bind at 1 3, gather at 1 3.
  rewrite run_all_fold_groups, run_all_concat_groups.
  destruct (run_groups groups s) as [rss s1]. simpl.
  pose proof (fold_summaries rss e) as Hfold.
  destruct (collect (map summary rss)) as [ws|err1],
           (collect (concat rss)) as [vs|err2]; simplify_eq/=; [by rewrite Hfold|done].
Qed.
End FoldGroups.

Lemma foldl_monoid_absorb {B : Type} (f : B → B → B) (e : B) :
  (∀ x, f e x = x) → (∀ x, f x e = x) → (∀ x y z, f (f x y) z = f x (f y z)) →
  ∀ (acc : B) (vs : list B), f acc (foldl f e vs) = foldl f acc vs.
Proof.
  intros Hleft Hright Hassoc acc vs. revert acc.
  induction vs as [|v vs IH]; intros acc; simpl; [apply Hright|].
  rewrite <- (IH (f acc v)), <- (IH (f e v)), Hleft. by rewrite Hassoc.
Qed.

Lemma TrainingData_merge_absorb (acc : TrainingData) (vs : list TrainingData) :
  TrainingDataOps.merge acc (foldl TrainingDataOps.merge TrainingDataOps.empty vs)
  = foldl TrainingDataOps.merge acc vs.
Proof.
  apply foldl_monoid_absorb; unfold TrainingDataOps.merge.
  - by intros [x].
  - intros [x]. simpl. by rewrite app_nil_r.
  - intros [x] [y] [z]. simpl. by rewrite app_assoc.
Qed.

Lemma StoryGraph_merge_absorb (acc : StoryGraph) (vs : list StoryGraph) :
  StoryGraphOps.merge acc (foldl StoryGraphOps.merge StoryGraphOps.empty vs)
  = foldl StoryGraphOps.merge acc vs.
Proof.
  apply foldl_monoid_absorb; unfold StoryGraphOps.merge.
  - by intros [x].
  - intros [x]. simpl. by rewrite app_nil_r.
  - intros [x] [y] [z]. simpl. by rewrite app_assoc.
Qed.

Lemma Domain_merge_empty_r (d : Domain) : DomainOps.merge d DomainOps.empty = d.
Proof.
  destruct d. unfold DomainOps.merge, DomainOps.empty, DomainOps.make. simpl.
  by rewrite !(right_id_L ∅ (∪)).
Qed.

Lemma Domain_merge_absorb (acc : Domain) (vs : list Domain) :
  DomainOps.merge acc (foldl DomainOps.merge DomainOps.empty vs)
  = foldl DomainOps.merge acc vs.
Proof.
  apply foldl_monoid_absorb.
  - intros [i en sl t a fo]. unfold DomainOps.merge, DomainOps.empty, DomainOps.make.
    simpl. by rewrite !(left_id_L ∅ (∪)).
  - apply Domain_merge_empty_r.
  - intros x y z. unfold DomainOps.merge. simpl.
    by rewrite !(assoc_L (∪)).
Qed.

Lemma merge_config_absorb (acc : gmap string Value)
    (vs : list (option (gmap string Value))) :
  CombinedDataImporter.merge_config acc
    (Some (foldl CombinedDataImporter.merge_config ∅ vs))
  = foldl CombinedDataImporter.merge_config acc vs.
Proof.
  apply map_eq. intros k.
  pose proof (reduce_merge_config_lookup vs acc k) as Hacc.
  pose proof (reduce_merge_config_lookup vs ∅ k) as Hempty.
  unfold reduce in Hacc, Hempty. rewrite Hacc.
  unfold CombinedDataImporter.merge_config at 1. simpl.
  rewrite lookup_union, Hempty, lookup_empty.
  destruct (last_binding k vs) as [v|]; simpl; [by destruct (acc !! k)|].
  by destruct (acc !! k).
Qed.

Section CombinedNesting.
Context {E S : Type}.

(** X2: an aggregator of aggregators behaves as the aggregator of all
    their children, in order: the four operations return the same
    result, raise the same exception and leave the same store. *)
Theorem combined_nested_flatten (groups : list (list (Importer.t E S)))
    (args : StoriesArgs) (language : option string) (s : S) :
  CombinedDataImporter.get_domain
    (map CombinedDataImporter.as_importer groups) s
  = CombinedDataImporter.get_domain (concat groups) s ∧
  CombinedDataImporter.get_stories
    (map CombinedDataImporter.as_importer groups) args s
  = CombinedDataImporter.get_stories (concat groups) args s ∧
  CombinedDataImporter.get_config
    (map CombinedDataImporter.as_importer groups) s
  = CombinedDataImporter.get_config (concat groups) s ∧
  CombinedDataImporter.get_nlu_data
    (map CombinedDataImporter.as_importer groups) language s
  = CombinedDataImporter.get_nlu_data (concat groups) language s.
Proof.
  split; [|split; [|split]].
  - unfold CombinedDataImporter.get_domain, reduce.
    rewrite concat_map.
    rewrite <- (fold_groups_flatten DomainOps.merge DomainOps.empty id
                  Domain_merge_absorb).
    by rewrite !map_map.
  - unfold CombinedDataImporter.get_stories, reduce.
    rewrite concat_map.
    rewrite <- (fold_groups_flatten StoryGraphOps.merge StoryGraphOps.empty id
                  StoryGraph_merge_absorb).
    by rewrite !map_map.
  - unfold CombinedDataImporter.get_config.
    rewrite concat_map.
    assert (∀ c : M E S (list (option (gmap string Value))),
      bind c (λ configs,
                ret (Some (reduce CombinedDataImporter.merge_config configs ∅))) s
      = match bind c (λ configs,
                        ret (foldl CombinedDataImporter.merge_config ∅ configs)) s
        with
        | (Ok merged, s1) => (Ok (Some merged), s1)
        | (Raise e, s1) => (Raise e, s1)
        end) as Hsome.
    { intros c. unfold bind, ret, reduce. by destruct (c s) as [[configs|e] s1]. }
    rewrite !Hsome.
    rewrite <- (fold_groups_flatten CombinedDataImporter.merge_config ∅ Some
                  merge_config_absorb).
    by rewrite !map_map.
  - unfold CombinedDataImporter.get_nlu_data, reduce.
    rewrite concat_map.
    rewrite <- (fold_groups_flatten TrainingDataOps.merge TrainingDataOps.empty id
                  TrainingData_merge_absorb).
    by rewrite !map_map.
Qed.
End CombinedNesting.

(** ** The aggregator: what a successful operation returns *)

Lemma foldl_TrainingData_merge (acc : TrainingData) (datas : list TrainingData) :
  foldl TrainingDataOps.merge acc datas
  = mkTrainingData (training_examples acc ++ concat (map training_examples datas)).
Proof.
  revert acc. induction datas as [|d datas IH]; intros [acc]; simpl.
  - by rewrite app_nil_r.
  - rewrite IH. simpl. by rewrite app_assoc.
Qed.

Lemma foldl_StoryGraph_merge (acc : StoryGraph) (graphs : list StoryGraph) :
  foldl StoryGraphOps.merge acc graphs
  = mkStoryGraph (story_steps acc ++ concat (map story_steps graphs)).
Proof.
  revert acc. induction graphs as [|g graphs IH]; intros [acc]; simpl.
  - by rewrite app_nil_r.
  - rewrite IH. simpl. by rewrite app_assoc.
Qed.

Lemma foldl_Domain_merge_names (names_of : Domain → gset string)
    (acc : Domain) (domains : list Domain) (name : string) :
  (∀ a b, names_of (DomainOps.merge a b) = names_of a ∪ names_of b) →
  name ∈ names_of (foldl DomainOps.merge acc domains) ↔
  name ∈ names_of acc ∨ ∃ d, d ∈ domains ∧ name ∈ names_of d.
Proof.
  intros Hmerge. revert acc.
  induction domains as [|d domains IH]; intros acc; simpl.
  - split; [by left|]. intros [H|(d & Hd & _)]; [done|].
    by apply elem_of_nil in Hd.
  - rewrite IH, Hmerge, elem_of_union. split.
    + intros [[H|H]|(d' & Hd' & H)]; [by left| |].
      * right. exists d. split; [apply elem_of_cons; by left|done].
      * right. exists d'. split; [apply elem_of_cons; by right|done].
    + intros [H|(d' & Hd' & H)]; [by left; left|].
      apply elem_of_cons in Hd' as [->|Hd']; [by left; right|].
      right. eauto.
Qed.

Lemma foldl_merge_config_skip_none (acc : gmap string Value)
    (configs : list (option (gmap string Value))) :
  foldl CombinedDataImporter.merge_config acc configs
  = foldl (λ merged config, config ∪ merged) acc (omap id configs).
Proof.
  revert acc. induction configs as [|[c|] configs IH]; intros acc; simpl.
  - done.
  - apply IH.
  - rewrite IH. unfold CombinedDataImporter.merge_config. simpl.
    by rewrite (left_id_L ∅ (∪)).
Qed.

Lemma last_binding_is_Some (k : string)
    (configs : list (option (gmap string Value))) :
  is_Some (last_binding k configs) ↔
  ∃ c : gmap string Value, Some c ∈ configs ∧ k ∈ dom c.
Proof.
  induction configs as [|config configs IH]; simpl.
  - split; [by intros [v Hv]|]. intros (c & Hc & _). by apply elem_of_nil in Hc.
  - fold (last_binding k configs).
    destruct (last_binding k configs) as [v|] eqn:Hlast.
    + split; [|by eauto]. intros _.
      destruct IH as [IH _]. destruct (IH (mk_is_Some _ _ eq_refl)) as (c & Hc & Hk).
      exists c. split; [apply elem_of_cons; by right|done].
    + split.
      * intros Hsome. destruct config as [c|]; simpl in Hsome.
        -- exists c. split; [apply elem_of_cons; by left|by apply elem_of_dom].
        -- rewrite lookup_empty in Hsome. by destruct Hsome.
      * intros (c & Hc & Hk). apply elem_of_cons in Hc as [<-|Hc].
        -- simpl. by apply elem_of_dom.
        -- destruct IH as [_ IH]. destruct IH as [v Hv]; [eauto|done].
Qed.

Section CombinedResults.
Context {E S : Type}.
Implicit Types (importers : list (Importer.t E S)) (s : S).

(** X3: when every child returns its NLU data, the aggregator returns
    all the examples of all the children, child after child in the
    order of the list; nothing is dropped, reordered or deduplicated. *)
Theorem combined_get_nlu_data_concat importers (language : option string) s s'
    (datas : list TrainingData) :
  gather (map (λ importer, Importer.get_nlu_data importer language) importers) s
  = (Ok datas, s') →
  CombinedDataImporter.get_nlu_data importers language s
  = (Ok (mkTrainingData (concat (map training_examples datas))), s') ∧
  length (training_examples
            (mkTrainingData (concat (map training_examples datas))))
  = sum_list (map (λ d, length (training_examples d)) datas).
Proof.
  intros Hgather. split.
  - unfold CombinedDataImporter.get_nlu_data, bind, ret, reduce.
    rewrite Hgather. by rewrite foldl_TrainingData_merge.
  - simpl. clear. induction datas as [|d datas IH]; simpl; [done|].
    by rewrite length_app, IH.
Qed.

(** X4: when every child returns its stories, the aggregator returns a
    graph with the steps of all the children, child after child in the
    order of the list, every step with its events as they were. *)
Theorem combined_get_stories_concat importers (args : StoriesArgs) s s'
    (graphs : list StoryGraph) :
  gather (map (λ importer, Importer.get_stories importer args) importers) s
  = (Ok graphs, s') →
  CombinedDataImporter.get_stories importers args s
  = (Ok (mkStoryGraph (concat (map story_steps graphs))), s') ∧
  all_events (mkStoryGraph (concat (map story_steps graphs)))
  = concat (map all_events graphs).
Proof.
  intros Hgather. split.
  - unfold CombinedDataImporter.get_stories, bind, ret, reduce.
    rewrite Hgather. by rewrite foldl_StoryGraph_merge.
  - unfold all_events. simpl. clear.
    induction graphs as [|g graphs IH]; simpl; [done|].
    by rewrite map_app, concat_app, IH.
Qed.

(** X5: when every child returns its domain, a name is an intent, an
    entity, a slot, an action or a form of the aggregated domain
    exactly when it is one in the domain of some child. *)
Theorem combined_get_domain_union importers s s' (domains : list Domain) :
  gather (map Importer.get_domain importers) s = (Ok domains, s') →
  ∃ merged : Domain,
    CombinedDataImporter.get_domain importers s = (Ok merged, s') ∧
    ∀ name : string,
      (name ∈ intents merged ↔ ∃ d, d ∈ domains ∧ name ∈ intents d) ∧
      (name ∈ entities merged ↔ ∃ d, d ∈ domains ∧ name ∈ entities d) ∧
      (name ∈ slots merged ↔ ∃ d, d ∈ domains ∧ name ∈ slots d) ∧
      (name ∈ action_names merged ↔ ∃ d, d ∈ domains ∧ name ∈ action_names d) ∧
      (name ∈ form_names merged ↔ ∃ d, d ∈ domains ∧ name ∈ form_names d).
Proof.
  intros Hgather. eexists. split.
  { unfold CombinedDataImporter.get_domain, bind, ret, reduce.
    by rewrite Hgather. }
  assert (∀ (names_of : Domain → gset string) (name : string),
    (∀ a b, names_of (DomainOps.merge a b) = names_of a ∪ names_of b) →
    names_of DomainOps.empty = ∅ →
    name ∈ names_of (foldl DomainOps.merge DomainOps.empty domains) ↔
    ∃ d, d ∈ domains ∧ name ∈ names_of d) as Hfield.
  { intros names_of name Hmerge Hempty.
    rewrite (foldl_Domain_merge_names names_of _ _ _ Hmerge), Hempty.
    split; [|by right]. intros [H|H]; [|done]. by apply elem_of_empty in H. }
  intros name. repeat split; apply Hfield; done.
Qed.

(** X6: when every child returns its configuration, a child without a
    configuration ([None]) is skipped, and the keys of the merged
    configuration are exactly the keys of the children's
    configurations. *)
Theorem combined_get_config_keys importers s s'
    (configs : list (option (gmap string Value))) :
  gather (map Importer.get_config importers) s = (Ok configs, s') →
  ∃ merged : gmap string Value,
    CombinedDataImporter.get_config importers s = (Ok (Some merged), s') ∧
    merged = foldl (λ acc config, config ∪ acc) ∅ (omap id configs) ∧
    ∀ k : string,
      k ∈ dom merged ↔ ∃ c : gmap string Value, Some c ∈ configs ∧ k ∈ dom c.
Proof.
  intros Hgather. eexists. split.
  { unfold CombinedDataImporter.get_config, bind, ret, reduce.
    by rewrite Hgather. }
  split; [apply foldl_merge_config_skip_none|].
  intros k. rewrite elem_of_dom.
  pose proof (reduce_merge_config_lookup configs ∅ k) as Hlookup.
  unfold reduce in Hlookup. rewrite Hlookup, lookup_empty.
  rewrite <- last_binding_is_Some.
  by destruct (last_binding k configs).
Qed.
End CombinedResults.

(** ** E2EImporter: the cache, the gathered fetches and their failures *)

Lemma message_events_count (evs : list Event) :
  length (omap _message_from_conversation_event evs)
  = length (filter (λ event, is_message_event event = true) evs).
Proof.
  induction evs as [|[t i|n t|ty] evs IH]; [done|..];
    rewrite filter_cons; cbn; by rewrite IH.
Qed.

Lemma messages_from_stories_all_events (stories : StoryGraph) :
  messages_from_stories stories
  = omap _message_from_conversation_event (all_events stories).
Proof.
  rewrite messages_from_stories_concat. unfold all_events, step_messages.
  destruct stories as [steps]. cbn [story_steps].
  induction steps as [|step steps IH]; [done|].
  cbn [map concat]. rewrite omap_app. f_equal. exact IH.
Qed.

Section E2EBehaviour.
Context {E S : Type}.
Variable default_action_names : list string.
Implicit Types (importer : Importer.t E S) (st : E2EImporter.state S).

(** X7: a failed fetch is not cached. With the cache unset, a failure
    of the wrapped [get_stories] is raised unchanged and leaves the
    cache unset; the next call asks the wrapped importer again, with
    its own arguments, and caches what it then returns. *)
Theorem get_stories_failure_not_cached importer (args : StoriesArgs) st
    (e : E) (s1 : S) :
  E2EImporter._cached_stories st = None →
  Importer.get_stories importer args (E2EImporter.inner st) = (Raise e, s1) →
  E2EImporter.get_stories importer args st
  = (Raise e, E2EImporter.mkState None s1) ∧
  ∀ (retry : StoriesArgs) (stories : StoryGraph) (s2 : S),
    Importer.get_stories importer retry s1 = (Ok stories, s2) →
    E2EImporter.get_stories importer retry (E2EImporter.mkState None s1)
    = (Ok stories, E2EImporter.mkState (Some stories) s2).
Proof.
  intros Hcache Hfail. split.
  - unfold E2EImporter.get_stories, bind, E2EImporter.read_cached_stories,
      E2EImporter.call, E2EImporter.write_cached_stories, ret.
    rewrite Hcache, Hfail. by rewrite Hcache.
  - intros retry stories s2 Hretry.
    by apply (get_stories_fetch importer retry (E2EImporter.mkState None s1)).
Qed.

(** X8: [get_domain] fetches the stories with the default arguments of
    [get_stories] and caches them. With the cache unset, the graph the
    wrapped importer returns for the default arguments is the one every
    later [get_stories] returns, whatever arguments that call is given. *)
Theorem get_domain_pins_default_stories importer st (original : Domain)
    (s1 s2 : S) (stories : StoryGraph) :
  E2EImporter._cached_stories st = None →
  Importer.get_domain importer (E2EImporter.inner st) = (Ok original, s1) →
  Importer.get_stories importer default_stories_args s1 = (Ok stories, s2) →
  (E2EImporter.get_domain importer st).2 = E2EImporter.mkState (Some stories) s2 ∧
  ∀ (other : Importer.t E S) (args : StoriesArgs),
    E2EImporter.get_stories other args (E2EImporter.get_domain importer st).2
    = (Ok stories, E2EImporter.mkState (Some stories) s2).
Proof.
  intros Hcache Hdomain Hstories.
  assert ((E2EImporter.get_domain importer st).2
          = E2EImporter.mkState (Some stories) s2) as Hstate.
  { pose proof (get_stories_fetch importer default_stories_args
                  (E2EImporter.mkState (E2EImporter._cached_stories st) s1)
                  stories s2) as Hfetch.
    simpl in Hfetch. specialize (Hfetch Hcache Hstories).
    unfold E2EImporter.get_domain, bind, gather2, E2EImporter.call,
      E2EImporter._get_domain_with_e2e_actions, bind, ret.
    by rewrite Hdomain, Hfetch. }
  split; [done|]. intros other args. rewrite Hstate.
  by apply get_stories_cached.
Qed.

(** X9: without [only_nlu], when the wrapped data and the stories are
    fetched, [get_nlu_data] returns three blocks of examples in this
    order: one example per default action, the wrapped importer's
    examples, and the messages derived from the stories. *)
Theorem get_nlu_data_three_sources importer (language : option string) st st2
    (nlu : TrainingData) (s1 : S) (stories : StoryGraph) :
  Importer.get_nlu_data importer language (E2EImporter.inner st) = (Ok nlu, s1) →
  E2EImporter.get_stories importer default_stories_args
    (E2EImporter.mkState (E2EImporter._cached_stories st) s1) = (Ok stories, st2) →
  ∃ result : TrainingData,
    E2EImporter.get_nlu_data default_action_names importer language false st
    = (Ok result, st2) ∧
    training_examples result
    = map (λ action_name,
             mkMessage EmptyString {[ MESSAGE_ACTION_NAME := action_name ]})
          default_action_names
      ++ training_examples nlu
      ++ omap _message_from_conversation_event (all_events stories) ∧
    length (training_examples result)
    = (length default_action_names + length (training_examples nlu)
       + length (filter (λ event, is_message_event event = true)
                        (all_events stories)))%nat.
Proof.
  intros Hnlu Hstories.
  eexists. split; [by eapply get_nlu_data_with_stories|].
  simpl. rewrite messages_from_stories_all_events. split; [done|].
  rewrite !length_app, length_map, message_events_count. lia.
Qed.

(** X10: with [only_nlu], [get_nlu_data] does not fetch the stories: it
    leaves the story cache as it is, the store of the wrapped importer
    is the one its [get_nlu_data] leaves, and the call fails exactly
    when that call fails, with its exception. The NLU-only decorator
    around an E2EImporter makes precisely this call. *)
Theorem only_nlu_never_fetches_stories (TypeError : string → E) importer
    (language : option string) st :
  NluDataImporterOverE2E.get_nlu_data TypeError default_action_names importer
    language st
  = E2EImporter.get_nlu_data default_action_names importer language true st ∧
  (E2EImporter.get_nlu_data default_action_names importer language true st).2
  = E2EImporter.mkState
      (E2EImporter._cached_stories st)
      (Importer.get_nlu_data importer language (E2EImporter.inner st)).2 ∧
  outcome (E2EImporter.get_nlu_data default_action_names importer language true st).1
  = outcome (Importer.get_nlu_data importer language (E2EImporter.inner st)).1.
Proof.
  split; [done|].
  unfold E2EImporter.get_nlu_data, bind, ret, gather, E2EImporter.call. simpl.
  by destruct (Importer.get_nlu_data importer language (E2EImporter.inner st))
    as [[nlu|e] s1].
Qed.

(** X11: [get_domain] and [get_nlu_data] without [only_nlu] gather the
    wrapped importer's call and the story fetch. Each succeeds exactly
    when both succeed; when it fails, the exception it raises is the
    exception of the wrapped call or the exception of the story
    fetch. *)
Theorem gathered_fetch_failures importer (language : option string) st :
  (outcome (E2EImporter.get_domain importer st).1 = Ok tt ↔
   outcome (Importer.get_domain importer (E2EImporter.inner st)).1 = Ok tt ∧
   outcome
     (E2EImporter.get_stories importer default_stories_args
        (E2EImporter.mkState
           (E2EImporter._cached_stories st)
           (Importer.get_domain importer (E2EImporter.inner st)).2)).1 = Ok tt) ∧
  (∀ e : E,
     outcome (E2EImporter.get_domain importer st).1 = Raise e →
     outcome (Importer.get_domain importer (E2EImporter.inner st)).1 = Raise e ∨
     outcome
       (E2EImporter.get_stories importer default_stories_args
          (E2EImporter.mkState
             (E2EImporter._cached_stories st)
             (Importer.get_domain importer (E2EImporter.inner st)).2)).1
     = Raise e) ∧
  (outcome
     (E2EImporter.get_nlu_data default_action_names importer language false st).1
   = Ok tt ↔
   outcome (Importer.get_nlu_data importer language (E2EImporter.inner st)).1
   = Ok tt ∧
   outcome
     (E2EImporter.get_stories importer default_stories_args
        (E2EImporter.mkState
           (E2EImporter._cached_stories st)
           (Importer.get_nlu_data importer language (E2EImporter.inner st)).2)).1
   = Ok tt) ∧
  (∀ e : E,
     outcome
       (E2EImporter.get_nlu_data default_action_names importer language false st).1
     = Raise e →
     outcome (Importer.get_nlu_data importer language (E2EImporter.inner st)).1
     = Raise e ∨
     outcome
       (E2EImporter.get_stories importer default_stories_args
          (E2EImporter.mkState
             (E2EImporter._cached_stories st)
             (Importer.get_nlu_data importer language (E2EImporter.inner st)).2)).1
     = Raise e).
Proof.
  assert (∀ r1 r2 r : result E unit,
    r = match r1 with Raise e => Raise e | Ok _ => r2 end →
    r1 = outcome r1 → r2 = outcome r2 →
    (r = Ok tt ↔ r1 = Ok tt ∧ r2 = Ok tt) ∧
    (∀ e, r = Raise e → r1 = Raise e ∨ r2 = Raise e)) as Hcases.
  { intros [[]|e1] [[]|e2] r -> _ _; split; try (intros e' H; auto);
      split; try done; try (by intros [? ?]). }
  assert (outcome (E2EImporter.get_domain importer st).1
    = match outcome (Importer.get_domain importer (E2EImporter.inner st)).1 with
      | Raise e => Raise e
      | Ok _ =>
          outcome
            (E2EImporter.get_stories importer default_stories_args
               (E2EImporter.mkState
                  (E2EImporter._cached_stories st)
                  (Importer.get_domain importer (E2EImporter.inner st)).2)).1
      end) as Hdomain.
  { unfold E2EImporter.get_domain, bind, gather2, E2EImporter.call,
      E2EImporter._get_domain_with_e2e_actions, bind, ret.
    destruct (Importer.get_domain importer (E2EImporter.inner st))
      as [[d|e] s1]; simpl;
    by destruct (E2EImporter.get_stories importer default_stories_args
                   (E2EImporter.mkState (E2EImporter._cached_stories st) s1))
      as [[g|e'] st2]. }
  assert (outcome
      (E2EImporter.get_nlu_data default_action_names importer language false st).1
    = match outcome
              (Importer.get_nlu_data importer language (E2EImporter.inner st)).1
      with
      | Raise e => Raise e
      | Ok _ =>
          outcome
            (E2EImporter.get_stories importer default_stories_args
               (E2EImporter.mkState
                  (E2EImporter._cached_stories st)
                  (Importer.get_nlu_data importer language
                     (E2EImporter.inner st)).2)).1
      end) as Hnlu.
  { unfold E2EImporter.get_nlu_data, bind, ret, gather, E2EImporter.call,
      E2EImporter._additional_training_data_from_stories, bind, ret. simpl.
    destruct (Importer.get_nlu_data importer language (E2EImporter.inner st))
      as [[nlu|e] s1]; simpl;
    by destruct (E2EImporter.get_stories importer default_stories_args
                   (E2EImporter.mkState (E2EImporter._cached_stories st) s1))
      as [[g|e'] st2]. }
  assert (∀ {A} (r : result E A), outcome r = outcome (outcome r)) as Hidem.
  { by intros A [a|e]. }
  destruct (Hcases _ _ _ Hdomain (Hidem _ _) (Hidem _ _)) as [Hd1 Hd2].
  destruct (Hcases _ _ _ Hnlu (Hidem _ _) (Hidem _ _)) as [Hn1 Hn2].
  done.
Qed.
End E2EBehaviour.

(** ** Derivations from the stories *)

(** X12: the story-derived messages follow the events of the story
    graph: one message per user utterance and per executed action, in
    the order of the steps and of the events inside each step; the step
    boundaries and the other events leave no trace. *)
Theorem story_messages_follow_events (stories : StoryGraph) :
  messages_from_stories stories
  = omap _message_from_conversation_event (all_events stories) ∧
  length (messages_from_stories stories)
  = length (filter (λ event, is_message_event event = true) (all_events stories)).
Proof.
  split; [apply messages_from_stories_all_events|].
  rewrite messages_from_stories_all_events. apply message_events_count.
Qed.

Lemma e2e_action_in_app (steps1 steps2 : list StoryStep) (name : string) :
  e2e_action_in (mkStoryGraph (steps1 ++ steps2)) name ↔
  e2e_action_in (mkStoryGraph steps1) name ∨
  e2e_action_in (mkStoryGraph steps2) name.
Proof.
  unfold e2e_action_in. simpl. split.
  - intros (st & t & Hst & Hev & Ht). apply elem_of_app in Hst as [Hst|Hst];
      [left|right]; eauto.
  - intros [(st & t & Hst & Hev & Ht)|(st & t & Hst & Hev & Ht)];
      exists st, t; (split; [apply elem_of_app; auto|done]).
Qed.

Lemma messages_from_merged_stories (graphs : list StoryGraph) :
  messages_from_stories (foldl StoryGraphOps.merge StoryGraphOps.empty graphs)
  = concat (map messages_from_stories graphs).
Proof.
  rewrite foldl_StoryGraph_merge. simpl.
  induction graphs as [|[steps] graphs IH]; simpl; [done|].
  by rewrite messages_from_stories_app, IH.
Qed.

Lemma e2e_action_in_merged (graphs : list StoryGraph) (name : string) :
  e2e_action_in (foldl StoryGraphOps.merge StoryGraphOps.empty graphs) name ↔
  ∃ g, g ∈ graphs ∧ e2e_action_in g name.
Proof.
  rewrite foldl_StoryGraph_merge. simpl.
  induction graphs as [|[steps] graphs IH]; simpl.
  - split.
    + intros (st & t & Hst & _). by apply elem_of_nil in Hst.
    + intros (g & Hg & _). by apply elem_of_nil in Hg.
  - rewrite e2e_action_in_app, IH. split.
    + intros [H|(g & Hg & H)].
      * exists (mkStoryGraph steps). split; [apply elem_of_cons; by left|done].
      * exists g. split; [apply elem_of_cons; by right|done].
    + intros (g & Hg & H). apply elem_of_cons in Hg as [->|Hg]; [by left|].
      right. eauto.
Qed.

(** X13: deriving from merged stories is merging the derivations. For
    the graph an aggregator builds from the graphs of its children, the
    derived messages are the children's derived messages, child after
    child, and an action is an end-to-end action of the merged graph
    exactly when it is one in the graph of some child. *)
Theorem merged_stories_derivations (graphs : list StoryGraph) :
  messages_from_stories (reduce StoryGraphOps.merge graphs StoryGraphOps.empty)
  = concat (map messages_from_stories graphs) ∧
  ∀ name : string,
    e2e_action_in (reduce StoryGraphOps.merge graphs StoryGraphOps.empty) name ↔
    ∃ g, g ∈ graphs ∧ e2e_action_in g name.
Proof.
  unfold reduce. split.
  - apply messages_from_merged_stories.
  - intros name. apply e2e_action_in_merged.
Qed.

Local Abbreviation e2e_names_of_stories := (λ stories : StoryGraph,
  foldl (λ acc story_step, acc ++ e2e_action_names (events story_step))
        [] (story_steps stories)).

Section E2EDomainUnchanged.
Context {E S : Type}.
Implicit Types (importer : Importer.t E S) (st : E2EImporter.state S).

(** X14: when no executed action of the stories carries a non-empty
    end-to-end text, [get_domain] returns the domain of the wrapped
    importer as it is. *)
Theorem get_domain_unchanged_without_e2e_text importer st st2
    (original : Domain) (s1 : S) (stories : StoryGraph) :
  Importer.get_domain importer (E2EImporter.inner st) = (Ok original, s1) →
  E2EImporter.get_stories importer default_stories_args
    (E2EImporter.mkState (E2EImporter._cached_stories st) s1) = (Ok stories, st2) →
  (∀ (story_step : StoryStep) (action_name : string) (e2e_text : option string),
     story_step ∈ story_steps stories →
     ActionExecuted action_name e2e_text ∈ events story_step →
     truthy e2e_text = false) →
  E2EImporter.get_domain importer st = (Ok original, st2).
Proof.
  intros Hdomain Hstories Hnone.
  assert (e2e_names_of_stories stories = []) as Hnames.
  { apply elem_of_nil_inv. intros name Hname.
    apply collected_e2e_action_names in Hname as [Hname|Hname].
    { by apply elem_of_nil in Hname. }
    destruct stories as [steps]. destruct Hname as (step & t & Hstep & Hev & Ht).
    specialize (Hnone step name (Some t) Hstep Hev). simpl in Hnone.
    destruct (String.eqb_spec t EmptyString); done. }
  unfold E2EImporter.get_domain, bind, gather2, E2EImporter.call,
    E2EImporter._get_domain_with_e2e_actions, bind, ret.
  rewrite Hdomain, Hstories. simpl.
  fold (e2e_names_of_stories stories). rewrite Hnames.
  f_equal. f_equal. apply Domain_merge_empty_r.
Qed.
End E2EDomainUnchanged.

(** ** The filtering decorators and the keyword they pass *)

Section KeywordCalls.
Context {E S : Type}.
Variable TypeError : string → E.

(** X15: [CoreDataImporter.get_stories] passes [only_core=True], which
    neither [E2EImporter.get_stories] nor
    [CombinedDataImporter.get_stories] accepts: around either of them
    the call raises a TypeError for every argument, and the wrapped
    importer is not reached (the store is untouched). The same holds
    for [NluDataImporter.get_nlu_data], which passes [only_nlu=True],
    around a [CombinedDataImporter]. *)
Theorem filter_keywords_rejected (importer : Importer.t E S)
    (importers : list (Importer.t E S)) (args : StoriesArgs)
    (language : option string) (st : E2EImporter.state S) (s : S) :
  CoreDataImporter.get_stories TypeError importer args st
  = (Raise (TypeError "only_core"), st) ∧
  OverCombined.core_get_stories TypeError importers args s
  = (Raise (TypeError "only_core"), s) ∧
  OverCombined.nlu_get_nlu_data TypeError importers language s
  = (Raise (TypeError "only_nlu"), s).
Proof. repeat split. Qed.
End KeywordCalls.

(** ** Instances of the further properties *)

Lemma combined_get_nlu_data_concat_witness :
  gather (map (λ importer, Importer.get_nlu_data importer (Some "en"))
              [example_importer; example_importer]) 0%nat
  = (Ok [mkTrainingData [greet_message]; mkTrainingData [greet_message]], 0%nat) ∧
  CombinedDataImporter.get_nlu_data [example_importer; example_importer]
    (Some "en") 0%nat
  = (Ok (mkTrainingData
           (concat (map training_examples
                        [mkTrainingData [greet_message];
                         mkTrainingData [greet_message]]))), 0%nat) ∧
  length (training_examples
            (mkTrainingData
               (concat (map training_examples
                            [mkTrainingData [greet_message];
                             mkTrainingData [greet_message]]))))
  = sum_list (map (λ d, length (training_examples d))
                  [mkTrainingData [greet_message]; mkTrainingData [greet_message]]).
Proof.
  split; [reflexivity|].
  apply (combined_get_nlu_data_concat [example_importer; example_importer]
           (Some "en") 0%nat 0%nat
           [mkTrainingData [greet_message]; mkTrainingData [greet_message]]).
  reflexivity.
Defined.

Lemma combined_get_stories_concat_witness :
  gather (map (λ importer, Importer.get_stories importer default_stories_args)
              [example_importer; greet_importer]) 0%nat
  = (Ok [example_story_graph; greet_story_graph], 2%nat) ∧
  CombinedDataImporter.get_stories [example_importer; greet_importer]
    default_stories_args 0%nat
  = (Ok (mkStoryGraph
           (concat (map story_steps [example_story_graph; greet_story_graph]))),
     2%nat) ∧
  all_events
    (mkStoryGraph (concat (map story_steps [example_story_graph; greet_story_graph])))
  = concat (map all_events [example_story_graph; greet_story_graph]).
Proof.
  split; [reflexivity|].
  apply (combined_get_stories_concat [example_importer; greet_importer]
           default_stories_args 0%nat 2%nat
           [example_story_graph; greet_story_graph]).
  reflexivity.
Defined.

Lemma combined_get_domain_union_witness :
  gather (map Importer.get_domain [greet_domain_importer; example_importer]) 0%nat
  = (Ok [DomainOps.make ["greet"] [] [] ∅ ["utter_greet"] []; DomainOps.empty],
     0%nat) ∧
  ∃ merged : Domain,
    CombinedDataImporter.get_domain [greet_domain_importer; example_importer] 0%nat
    = (Ok merged, 0%nat) ∧
    ∀ name : string,
      (name ∈ intents merged ↔
       ∃ d, d ∈ [DomainOps.make ["greet"] [] [] ∅ ["utter_greet"] [];
                 DomainOps.empty] ∧ name ∈ intents d) ∧
      (name ∈ entities merged ↔
       ∃ d, d ∈ [DomainOps.make ["greet"] [] [] ∅ ["utter_greet"] [];
                 DomainOps.empty] ∧ name ∈ entities d) ∧
      (name ∈ slots merged ↔
       ∃ d, d ∈ [DomainOps.make ["greet"] [] [] ∅ ["utter_greet"] [];
                 DomainOps.empty] ∧ name ∈ slots d) ∧
      (name ∈ action_names merged ↔
       ∃ d, d ∈ [DomainOps.make ["greet"] [] [] ∅ ["utter_greet"] [];
                 DomainOps.empty] ∧ name ∈ action_names d) ∧
      (name ∈ form_names merged ↔
       ∃ d, d ∈ [DomainOps.make ["greet"] [] [] ∅ ["utter_greet"] [];
                 DomainOps.empty] ∧ name ∈ form_names d).
Proof.
  split; [reflexivity|].
  apply (combined_get_domain_union [greet_domain_importer; example_importer]
           0%nat 0%nat
           [DomainOps.make ["greet"] [] [] ∅ ["utter_greet"] []; DomainOps.empty]).
  reflexivity.
Defined.

Lemma combined_get_config_keys_witness :
  gather (map Importer.get_config
              [first_config_importer; example_importer; second_config_importer])
         0%nat
  = (Ok [Some {[ "a" := VInt 1 ]}; None;
         Some {[ "a" := VInt 2; "b" := VInt 3 ]}], 0%nat) ∧
  ∃ merged : gmap string Value,
    CombinedDataImporter.get_config
      [first_config_importer; example_importer; second_config_importer] 0%nat
    = (Ok (Some merged), 0%nat) ∧
    merged = foldl (λ acc config, config ∪ acc) ∅
               (omap id [Some {[ "a" := VInt 1 ]}; None;
                         Some {[ "a" := VInt 2; "b" := VInt 3 ]}]) ∧
    ∀ k : string,
      k ∈ dom merged ↔
      ∃ c : gmap string Value,
        Some c ∈ [Some {[ "a" := VInt 1 ]}; None;
                  Some {[ "a" := VInt 2; "b" := VInt 3 ]}] ∧ k ∈ dom c.
Proof.
  split; [reflexivity|].
  apply (combined_get_config_keys
           [first_config_importer; example_importer; second_config_importer]
           0%nat 0%nat
           [Some {[ "a" := VInt 1 ]}; None; Some {[ "a" := VInt 2; "b" := VInt 3 ]}]).
  reflexivity.
Defined.

Lemma get_stories_failure_not_cached_witness :
  E2EImporter._cached_stories (E2EImporter.init (S:=nat) 0%nat) = None ∧
  Importer.get_stories flaky_importer default_stories_args
    (E2EImporter.inner (E2EImporter.init 0%nat))
  = (Raise "stories.md is locked", 1%nat) ∧
  E2EImporter.get_stories flaky_importer default_stories_args
    (E2EImporter.init 0%nat)
  = (Raise "stories.md is locked", E2EImporter.mkState None 1%nat) ∧
  ∀ (retry : StoriesArgs) (stories : StoryGraph) (s2 : nat),
    Importer.get_stories flaky_importer retry 1%nat = (Ok stories, s2) →
    E2EImporter.get_stories flaky_importer retry (E2EImporter.mkState None 1%nat)
    = (Ok stories, E2EImporter.mkState (Some stories) s2).
Proof.
  split; [reflexivity|]. split; [reflexivity|].
  apply (get_stories_failure_not_cached flaky_importer default_stories_args
           (E2EImporter.init 0%nat) "stories.md is locked" 1%nat);
    reflexivity.
Defined.

Lemma get_domain_pins_default_stories_witness :
  E2EImporter._cached_stories (E2EImporter.init (S:=nat) 0%nat) = None ∧
  Importer.get_domain
    (fixed_importer DomainOps.empty example_story_graph false None
                    TrainingDataOps.empty)
    (E2EImporter.inner (E2EImporter.init 0%nat))
  = (Ok DomainOps.empty, 0%nat) ∧
  Importer.get_stories
    (fixed_importer DomainOps.empty example_story_graph false None
                    TrainingDataOps.empty)
    default_stories_args 0%nat
  = (Ok StoryGraphOps.empty, 1%nat) ∧
  (E2EImporter.get_domain
     (fixed_importer DomainOps.empty example_story_graph false None
                     TrainingDataOps.empty)
     (E2EImporter.init 0%nat)).2
  = E2EImporter.mkState (Some StoryGraphOps.empty) 1%nat ∧
  ∀ (other : Importer.t string nat) (args : StoriesArgs),
    E2EImporter.get_stories other args
      (E2EImporter.get_domain
         (fixed_importer DomainOps.empty example_story_graph false None
                         TrainingDataOps.empty)
         (E2EImporter.init 0%nat)).2
    = (Ok StoryGraphOps.empty,
       E2EImporter.mkState (Some StoryGraphOps.empty) 1%nat).
Proof.
  split; [reflexivity|]. split; [reflexivity|]. split; [reflexivity|].
  apply (get_domain_pins_default_stories
           (fixed_importer DomainOps.empty example_story_graph false None
                           TrainingDataOps.empty)
           (E2EImporter.init 0%nat) DomainOps.empty 0%nat 1%nat
           StoryGraphOps.empty);
    reflexivity.
Defined.

Lemma get_nlu_data_three_sources_witness :
  Importer.get_nlu_data example_importer (Some "en")
    (E2EImporter.inner (E2EImporter.init 0%nat))
  = (Ok (mkTrainingData [greet_message]), 0%nat) ∧
  E2EImporter.get_stories example_importer default_stories_args
    (E2EImporter.mkState
       (E2EImporter._cached_stories (E2EImporter.init 0%nat)) 0%nat)
  = (Ok example_story_graph,
     E2EImporter.mkState (Some example_story_graph) 1%nat) ∧
  ∃ result : TrainingData,
    E2EImporter.get_nlu_data ["action_listen"; "action_restart"] example_importer
      (Some "en") false (E2EImporter.init 0%nat)
    = (Ok result, E2EImporter.mkState (Some example_story_graph) 1%nat) ∧
    training_examples result
    = map (λ action_name,
             mkMessage EmptyString {[ MESSAGE_ACTION_NAME := action_name ]})
          ["action_listen"; "action_restart"]
      ++ training_examples (mkTrainingData [greet_message])
      ++ omap _message_from_conversation_event (all_events example_story_graph) ∧
    length (training_examples result)
    = (length ["action_listen"; "action_restart"]
       + length (training_examples (mkTrainingData [greet_message]))
       + length (filter (λ event, is_message_event event = true)
                        (all_events example_story_graph)))%nat.
Proof.
  split; [reflexivity|]. split; [reflexivity|].
  apply (get_nlu_data_three_sources ["action_listen"; "action_restart"]
           example_importer (Some "en") (E2EImporter.init 0%nat)
           (E2EImporter.mkState (Some example_story_graph) 1%nat)
           (mkTrainingData [greet_message]) 0%nat example_story_graph);
    reflexivity.
Defined.

Lemma get_domain_unchanged_without_e2e_text_witness :
  Importer.get_domain greet_domain_importer
    (E2EImporter.inner (E2EImporter.init 0%nat))
  = (Ok (DomainOps.make ["greet"] [] [] ∅ ["utter_greet"] []), 0%nat) ∧
  E2EImporter.get_stories greet_domain_importer default_stories_args
    (E2EImporter.mkState
       (E2EImporter._cached_stories (E2EImporter.init 0%nat)) 0%nat)
  = (Ok greet_story_graph, E2EImporter.mkState (Some greet_story_graph) 1%nat) ∧
  (∀ (story_step : StoryStep) (action_name : string) (e2e_text : option string),
     story_step ∈ story_steps greet_story_graph →
     ActionExecuted action_name e2e_text ∈ events story_step →
     truthy e2e_text = false) ∧
  E2EImporter.get_domain greet_domain_importer (E2EImporter.init 0%nat)
  = (Ok (DomainOps.make ["greet"] [] [] ∅ ["utter_greet"] []),
     E2EImporter.mkState (Some greet_story_graph) 1%nat).
Proof.
  assert (∀ (story_step : StoryStep) (action_name : string)
            (e2e_text : option string),
     story_step ∈ story_steps greet_story_graph →
     ActionExecuted action_name e2e_text ∈ events story_step →
     truthy e2e_text = false) as Hnone.
  { intros story_step action_name e2e_text Hstep Hevent.
    apply list_elem_of_singleton in Hstep. subst story_step.
    apply elem_of_cons in Hevent as [Hevent|Hevent]; [discriminate Hevent|].
    apply list_elem_of_singleton in Hevent. by injection Hevent as _ ->. }
  split; [reflexivity|]. split; [reflexivity|]. split; [exact Hnone|].
  apply (get_domain_unchanged_without_e2e_text greet_domain_importer
           (E2EImporter.init 0%nat)
           (E2EImporter.mkState (Some greet_story_graph) 1%nat)
           (DomainOps.make ["greet"] [] [] ∅ ["utter_greet"] []) 0%nat
           greet_story_graph eq_refl eq_refl Hnone).
Defined.

(** ** The assembled importer: an E2EImporter around an aggregator *)

Lemma derived_action_names (stories : StoryGraph) (name : string) :
  name ∈ (list_to_set (elements (list_to_set
            (foldl (λ acc story_step, acc ++ e2e_action_names (events story_step))
                   [] (story_steps stories)) : gset string)) : gset string)
  ↔ e2e_action_in stories name.
Proof.
  rewrite list_to_set_elements_L, elem_of_list_to_set.
  rewrite collected_e2e_action_names. destruct stories as [steps]. simpl.
  split; [|by right]. intros [H|H]; [|done]. by apply elem_of_nil in H.
Qed.

Section Assembled.
Context {E S : Type}.
Variable default_action_names : list string.
Implicit Types (importers : list (Importer.t E S)) (st : E2EImporter.state S).

Lemma assembled_get_stories_fetch importers st (s1 s2 : S)
    (graphs : list StoryGraph) :
  E2EImporter._cached_stories st = None →
  gather (map (λ importer, Importer.get_stories importer default_stories_args)
              importers) s1 = (Ok graphs, s2) →
  E2EImporter.get_stories (CombinedDataImporter.as_importer importers)
    default_stories_args
    (E2EImporter.mkState (E2EImporter._cached_stories st) s1)
  = (Ok (foldl StoryGraphOps.merge StoryGraphOps.empty graphs),
     E2EImporter.mkState
       (Some (foldl StoryGraphOps.merge StoryGraphOps.empty graphs)) s2).
Proof.
  intros Hcache Hstories.
  apply (get_stories_fetch (CombinedDataImporter.as_importer importers)
           default_stories_args
           (E2EImporter.mkState (E2EImporter._cached_stories st) s1)); [done|].
  simpl. unfold CombinedDataImporter.get_stories, bind, ret, reduce.
  by rewrite Hstories.
Qed.

(** X16: for the importer [load_from_dict] assembles, an E2EImporter
    around an aggregator, with the story cache unset: when every child
    returns its NLU data and its stories, [get_nlu_data] returns the
    default-action examples, then the examples of the children, child
    after child, then the messages derived from the stories of the
    children, child after child; the merged story graph is cached. *)
Theorem assembled_get_nlu_data importers (language : option string) st
    (s1 s2 : S) (datas : list TrainingData) (graphs : list StoryGraph) :
  E2EImporter._cached_stories st = None →
  gather (map (λ importer, Importer.get_nlu_data importer language) importers)
         (E2EImporter.inner st) = (Ok datas, s1) →
  gather (map (λ importer, Importer.get_stories importer default_stories_args)
              importers) s1 = (Ok graphs, s2) →
  E2EImporter.get_nlu_data default_action_names
    (CombinedDataImporter.as_importer importers) language false st
  = (Ok (mkTrainingData
           (map (λ action_name,
                   mkMessage EmptyString {[ MESSAGE_ACTION_NAME := action_name ]})
                default_action_names
            ++ concat (map training_examples datas)
            ++ concat (map messages_from_stories graphs))),
     E2EImporter.mkState
       (Some (mkStoryGraph (concat (map story_steps graphs)))) s2).
Proof.
  intros Hcache Hnlu Hstories.
  pose proof (assembled_get_stories_fetch importers st s1 s2 graphs
                Hcache Hstories) as Hfetch.
  assert (Importer.get_nlu_data (CombinedDataImporter.as_importer importers)
            language (E2EImporter.inner st)
          = (Ok (foldl TrainingDataOps.merge TrainingDataOps.empty datas), s1))
    as Hdata.
  { simpl. unfold CombinedDataImporter.get_nlu_data, bind, ret, reduce.
    by rewrite Hnlu. }
  rewrite (get_nlu_data_with_stories default_action_names _ language st _ _ _ _
             Hdata Hfetch).
  rewrite messages_from_merged_stories.
  rewrite foldl_TrainingData_merge, foldl_StoryGraph_merge. done.
Qed.

(** X17: for the same assembled importer, with the story cache unset:
    when every child returns its domain and its stories, the actions of
    the domain [get_domain] returns are the actions declared by some
    child together with the actions some child's stories script with a
    non-empty end-to-end text. *)
Theorem assembled_get_domain importers st (s1 s2 : S) (domains : list Domain)
    (graphs : list StoryGraph) :
  E2EImporter._cached_stories st = None →
  gather (map Importer.get_domain importers) (E2EImporter.inner st)
  = (Ok domains, s1) →
  gather (map (λ importer, Importer.get_stories importer default_stories_args)
              importers) s1 = (Ok graphs, s2) →
  ∃ domain : Domain,
    E2EImporter.get_domain (CombinedDataImporter.as_importer importers) st
    = (Ok domain,
       E2EImporter.mkState
         (Some (mkStoryGraph (concat (map story_steps graphs)))) s2) ∧
    ∀ name : string,
      name ∈ action_names domain ↔
      (∃ d, d ∈ domains ∧ name ∈ action_names d) ∨
      (∃ g, g ∈ graphs ∧ e2e_action_in g name).
Proof.
  intros Hcache Hdomains Hstories.
  pose proof (assembled_get_stories_fetch importers st s1 s2 graphs
                Hcache Hstories) as Hfetch.
  eexists. split.
  { unfold E2EImporter.get_domain, bind, gather2, E2EImporter.call,
      E2EImporter._get_domain_with_e2e_actions, bind, ret.
    simpl. unfold CombinedDataImporter.get_domain, bind, ret, reduce.
    rewrite Hdomains. simpl in Hfetch. rewrite Hfetch. simpl.
    rewrite foldl_StoryGraph_merge. reflexivity. }
  intros name. simpl. rewrite elem_of_union.
  rewrite (foldl_Domain_merge_names action_names) by done.
  rewrite (derived_action_names (mkStoryGraph (concat (map story_steps graphs)))).
  pose proof (e2e_action_in_merged graphs name) as Hmerged.
  rewrite foldl_StoryGraph_merge in Hmerged. simpl in Hmerged. rewrite Hmerged.
  split.
  - intros [[H|H]|H]; [by apply elem_of_empty in H|by left|by right].
  - intros [H|H]; [left; by right|by right].
Qed.
End Assembled.

Lemma assembled_get_nlu_data_witness :
  E2EImporter._cached_stories (E2EImporter.init (S:=nat) 0%nat) = None ∧
  gather (map (λ importer, Importer.get_nlu_data importer (Some "en"))
              [greet_domain_importer; example_importer])
         (E2EImporter.inner (E2EImporter.init 0%nat))
  = (Ok [TrainingDataOps.empty; mkTrainingData [greet_message]], 0%nat) ∧
  gather (map (λ importer, Importer.get_stories importer default_stories_args)
              [greet_domain_importer; example_importer]) 0%nat
  = (Ok [greet_story_graph; example_story_graph], 2%nat) ∧
  E2EImporter.get_nlu_data ["action_listen"]
    (CombinedDataImporter.as_importer [greet_domain_importer; example_importer])
    (Some "en") false (E2EImporter.init 0%nat)
  = (Ok (mkTrainingData
           (map (λ action_name,
                   mkMessage EmptyString {[ MESSAGE_ACTION_NAME := action_name ]})
                ["action_listen"]
            ++ concat (map training_examples
                           [TrainingDataOps.empty; mkTrainingData [greet_message]])
            ++ concat (map messages_from_stories
                           [greet_story_graph; example_story_graph]))),
     E2EImporter.mkState
       (Some (mkStoryGraph
                (concat (map story_steps [greet_story_graph; example_story_graph]))))
       2%nat).
Proof.
  split; [reflexivity|]. split; [reflexivity|]. split; [reflexivity|].
  apply (assembled_get_nlu_data ["action_listen"]
           [greet_domain_importer; example_importer] (Some "en")
           (E2EImporter.init 0%nat) 0%nat 2%nat
           [TrainingDataOps.empty; mkTrainingData [greet_message]]
           [greet_story_graph; example_story_graph]);
    reflexivity.
Defined.

Lemma assembled_get_domain_witness :
  E2EImporter._cached_stories (E2EImporter.init (S:=nat) 0%nat) = None ∧
  gather (map Importer.get_domain [greet_domain_importer; example_importer])
         (E2EImporter.inner (E2EImporter.init 0%nat))
  = (Ok [DomainOps.make ["greet"] [] [] ∅ ["utter_greet"] []; DomainOps.empty],
     0%nat) ∧
  gather (map (λ importer, Importer.get_stories importer default_stories_args)
              [greet_domain_importer; example_importer]) 0%nat
  = (Ok [greet_story_graph; example_story_graph], 2%nat) ∧
  ∃ domain : Domain,
    E2EImporter.get_domain
      (CombinedDataImporter.as_importer [greet_domain_importer; example_importer])
      (E2EImporter.init 0%nat)
    = (Ok domain,
       E2EImporter.mkState
         (Some (mkStoryGraph
                  (concat (map story_steps
                               [greet_story_graph; example_story_graph]))))
         2%nat) ∧
    ∀ name : string,
      name ∈ action_names domain ↔
      (∃ d, d ∈ [DomainOps.make ["greet"] [] [] ∅ ["utter_greet"] [];
                 DomainOps.empty] ∧ name ∈ action_names d) ∨
      (∃ g, g ∈ [greet_story_graph; example_story_graph] ∧ e2e_action_in g name).
Proof.
  split; [reflexivity|]. split; [reflexivity|]. split; [reflexivity|].
  apply (assembled_get_domain [greet_domain_importer; example_importer]
           (E2EImporter.init 0%nat) 0%nat 2%nat
           [DomainOps.make ["greet"] [] [] ∅ ["utter_greet"] []; DomainOps.empty]
           [greet_story_graph; example_story_graph]);
    reflexivity.
Defined.

(** ** The factory *)

Lemma result_map_list_app {E A B : Type} (f : A → result E B) (l1 l2 : list A) :
  result_map_list f (l1 ++ l2)
  = match result_map_list f l1 with
    | Raise e => Raise e
    | Ok ys1 =>
        match result_map_list f l2 with
        | Raise e => Raise e
        | Ok ys2 => Ok (ys1 ++ ys2)
        end
    end.
Proof.
  induction l1 as [|x l1 IH]; simpl.
  - by destruct (result_map_list f l2).
  - destruct (f x) as [y|e]; [|done]. rewrite IH.
    destruct (result_map_list f l1) as [ys1|e]; [|done].
    by destruct (result_map_list f l2).
Qed.

Lemma result_map_list_const {E A B : Type} (f : A → result E B) (l : list A) (y : B) :
  (∀ x, x ∈ l → f x = Ok y) →
  result_map_list f l = Ok (replicate (length l) y).
Proof.
  induction l as [|x l IH]; intros Hall; simpl; [done|].
  rewrite (Hall x) by (apply elem_of_cons; by left).
  rewrite IH; [done|]. intros x' Hx'. apply Hall, elem_of_cons. by right.
Qed.

Section FactoryFacts.
Context {E Class Imp : Type}.
Variable TypeError : string → E.
Variables (RasaFileImporter MultiProjectImporter : Class).
Variable class_from_module_path : option Value → result E Class.
Variable is_AttributeError_or_ImportError : E → bool.
Variable minimal_kwargs : gmap string Value → Class → gmap string Value.
Variable construct : Class → Paths → gmap string Value → result E Imp.

Local Abbreviation importer_from_dict :=
  (Factory._importer_from_dict RasaFileImporter MultiProjectImporter
     class_from_module_path is_AttributeError_or_ImportError minimal_kwargs
     construct).

Local Abbreviation load :=
  (Factory.load_from_dict TypeError RasaFileImporter MultiProjectImporter
     class_from_module_path is_AttributeError_or_ImportError minimal_kwargs
     construct).

(** An entry whose class is not found yields no importer and no
    exception. *)
Lemma importer_from_dict_not_found (importer_config : gmap string Value)
    (paths : Paths) (e : E) :
  importer_config !! "name" ≠ Some (VStr "RasaFileImporter") →
  importer_config !! "name" ≠ Some (VStr "MultiProjectImporter") →
  class_from_module_path (importer_config !! "name") = Raise e →
  is_AttributeError_or_ImportError e = true →
  importer_from_dict importer_config paths = Ok None.
Proof.
  intros Hrasa Hmulti Hraise Hcaught. unfold Factory._importer_from_dict.
  rewrite !bool_decide_eq_false_2 by done.
  by rewrite Hraise, Hcaught.
Qed.

(** X18: the aggregator [load_from_dict] assembles is never empty:
    whenever the load succeeds, at least one importer was built. *)
Theorem load_from_dict_never_empty (config : option LoadedConfig) (paths : Paths)
    (importers : list Imp) :
  load config paths = Ok importers → importers ≠ [].
Proof.
  unfold Factory.load_from_dict.
  destruct config as [[[| |entries]]|]; simpl.
  - destruct (construct RasaFileImporter paths ∅); by intros [= <-].
  - done.
  - destruct (result_map_list _ entries) as [built|e]; [|done].
    destruct (omap id built) as [|importer rest].
    + destruct (construct RasaFileImporter paths ∅); by intros [= <-].
    + by intros [= <-].
  - destruct (construct RasaFileImporter paths ∅); by intros [= <-].
Qed.

(** X19: when the configuration is missing or empty, has no
    ["importers"] key or an empty list under it, or none of the entries
    of the list yields an importer, [load_from_dict] falls back to a
    single [RasaFileImporter] built from the three paths without
    further arguments; a failure of that constructor is raised. A value
    [None] under ["importers"] is no such case: the load raises a
    TypeError. *)
Theorem load_from_dict_fallback (config : option LoadedConfig) (paths : Paths) :
  (∀ c : LoadedConfig, config = Some c → importers_entry c ≠ ImportersNone) →
  (∀ importer_config : gmap string Value,
     importer_config ∈ configured_importers config →
     importer_from_dict importer_config paths = Ok None) →
  load config paths
  = match construct RasaFileImporter paths ∅ with
    | Ok importer => Ok [importer]
    | Raise e => Raise e
    end ∧
  load (Some (mkLoadedConfig ImportersNone)) paths
  = Raise (TypeError "'NoneType' object is not iterable").
Proof.
  intros Hlist Hnone. split; [|done].
  assert (∀ n : nat, omap id (replicate n (@None Imp)) = []) as Hempty.
  { induction n as [|n IH]; [done|]. exact IH. }
  unfold Factory.load_from_dict.
  destruct config as [[[| |entries]]|]; simpl in *.
  - done.
  - by destruct (Hlist _ eq_refl).
  - by rewrite (result_map_list_const _ _ None Hnone), Hempty.
  - done.
Qed.

(** X20: an entry whose class cannot be found (the name is none of the
    two built-in class names and [class_from_module_path] raises an
    AttributeError or an ImportError) is skipped: the load gives what
    it gives without the entry. *)
Theorem load_from_dict_skips_unresolved (before after : list (gmap string Value))
    (importer_config : gmap string Value) (paths : Paths) (e : E) :
  importer_config !! "name" ≠ Some (VStr "RasaFileImporter") →
  importer_config !! "name" ≠ Some (VStr "MultiProjectImporter") →
  class_from_module_path (importer_config !! "name") = Raise e →
  is_AttributeError_or_ImportError e = true →
  load (Some (mkLoadedConfig (ImportersList (before ++ importer_config :: after))))
       paths
  = load (Some (mkLoadedConfig (ImportersList (before ++ after)))) paths.
Proof.
  intros Hrasa Hmulti Hraise Hcaught.
  pose proof (importer_from_dict_not_found importer_config paths e
                Hrasa Hmulti Hraise Hcaught) as Hskip.
  unfold Factory.load_from_dict. simpl.
  rewrite !result_map_list_app. simpl. rewrite Hskip.
  destruct (result_map_list _ before) as [built1|e1]; [|done].
  destruct (result_map_list _ after) as [built2|e2]; [|done].
  by rewrite !omap_app.
Qed.
End FactoryFacts.

Lemma load_from_dict_never_empty_witness :
  example_load_from_dict
    (Some (mkLoadedConfig
             (ImportersList
                [{[ "name" := VStr "custom.Importer"; "retries" := VInt 3 ]};
                 {[ "name" := VStr "missing.Importer" ]}])))
    example_paths
  = Ok [("custom.Importer", {[ "retries" := VInt 3 ]})] ∧
  [("custom.Importer", ({[ "retries" := VInt 3 ]} : gmap string Value))] ≠ [].
Proof.
  split; [by vm_compute|].
  apply (load_from_dict_never_empty (λ message, message)
           "RasaFileImporter" "MultiProjectImporter"
           example_class_from_module_path (λ e, bool_decide (e = "ImportError"))
           (λ arguments _, arguments) example_construct
           (Some (mkLoadedConfig
                    (ImportersList
                       [{[ "name" := VStr "custom.Importer";
                           "retries" := VInt 3 ]};
                        {[ "name" := VStr "missing.Importer" ]}])))
           example_paths).
  by vm_compute.
Defined.

Lemma load_from_dict_fallback_witness :
  (∀ c : LoadedConfig,
     Some (mkLoadedConfig
             (ImportersList [{[ "name" := VStr "missing.Importer" ]}])) = Some c →
     importers_entry c ≠ ImportersNone) ∧
  (∀ importer_config : gmap string Value,
     importer_config
       ∈ configured_importers
           (Some (mkLoadedConfig
                    (ImportersList [{[ "name" := VStr "missing.Importer" ]}]))) →
     Factory._importer_from_dict "RasaFileImporter" "MultiProjectImporter"
       example_class_from_module_path (λ e, bool_decide (e = "ImportError"))
       (λ arguments _, arguments) example_construct importer_config example_paths
     = Ok None) ∧
  example_load_from_dict
    (Some (mkLoadedConfig (ImportersList [{[ "name" := VStr "missing.Importer" ]}])))
    example_paths
  = match example_construct "RasaFileImporter" example_paths ∅ with
    | Ok importer => Ok [importer]
    | Raise e => Raise e
    end ∧
  example_load_from_dict (Some (mkLoadedConfig ImportersNone)) example_paths
  = Raise "'NoneType' object is not iterable".
Proof.
  assert (∀ c : LoadedConfig,
     Some (mkLoadedConfig
             (ImportersList [{[ "name" := VStr "missing.Importer" ]}])) = Some c →
     importers_entry c ≠ ImportersNone) as Hlist.
  { intros c [= <-]. discriminate. }
  assert (∀ importer_config : gmap string Value,
     importer_config
       ∈ configured_importers
           (Some (mkLoadedConfig
                    (ImportersList [{[ "name" := VStr "missing.Importer" ]}]))) →
     Factory._importer_from_dict "RasaFileImporter" "MultiProjectImporter"
       example_class_from_module_path (λ e, bool_decide (e = "ImportError"))
       (λ arguments _, arguments) example_construct importer_config example_paths
     = Ok None) as Hnone.
  { intros importer_config Hin. simpl in Hin.
    apply list_elem_of_singleton in Hin. subst importer_config. by vm_compute. }
  split; [exact Hlist|]. split; [exact Hnone|].
  apply (load_from_dict_fallback (λ message, message)
           "RasaFileImporter" "MultiProjectImporter"
           example_class_from_module_path (λ e, bool_decide (e = "ImportError"))
           (λ arguments _, arguments) example_construct
           (Some (mkLoadedConfig
                    (ImportersList [{[ "name" := VStr "missing.Importer" ]}])))
           example_paths Hlist Hnone).
Defined.

Lemma load_from_dict_skips_unresolved_witness :
  ({[ "name" := VStr "missing.Importer" ]} : gmap string Value) !! "name"
    ≠ Some (VStr "RasaFileImporter") ∧
  ({[ "name" := VStr "missing.Importer" ]} : gmap string Value) !! "name"
    ≠ Some (VStr "MultiProjectImporter") ∧
  example_class_from_module_path
    (({[ "name" := VStr "missing.Importer" ]} : gmap string Value) !! "name")
  = Raise "ImportError" ∧
  bool_decide ("ImportError" = "ImportError") = true ∧
  example_load_from_dict
    (Some (mkLoadedConfig
             (ImportersList
                ([{[ "name" := VStr "MultiProjectImporter" ]}]
                 ++ {[ "name" := VStr "missing.Importer" ]} :: []))))
    example_paths
  = example_load_from_dict
      (Some (mkLoadedConfig
               (ImportersList ([{[ "name" := VStr "MultiProjectImporter" ]}] ++ []))))
      example_paths.
Proof.
  assert (({[ "name" := VStr "missing.Importer" ]} : gmap string Value) !! "name"
          = Some (VStr "missing.Importer")) as Hname by (by vm_compute).
  split; [rewrite Hname; discriminate|].
  split; [rewrite Hname; discriminate|].
  split; [by vm_compute|]. split; [reflexivity|].
  apply (load_from_dict_skips_unresolved (λ message, message)
           "RasaFileImporter" "MultiProjectImporter"
           example_class_from_module_path (λ e, bool_decide (e = "ImportError"))
           (λ arguments _, arguments) example_construct
           [{[ "name" := VStr "MultiProjectImporter" ]}] []
           {[ "name" := VStr "missing.Importer" ]} example_paths "ImportError").
  - rewrite Hname; discriminate.
  - rewrite Hname; discriminate.
  - by vm_compute.
  - reflexivity.
Defined.
